(** * Signup / verification flow and recommendation panel

    A shallow embedding of the event handlers of [src/pages/Signup.tsx] and
    [src/pages/Recommendations.tsx].

    - A JavaScript string is its sequence of UTF-16 code units.
    - A handler is a computation over a machine made of the component's view
      state (the [useState] cells), the state of the outside world (identity
      provider, recommendation backend) and the trace of the effects
      performed so far; each effect is recorded with the view state that was
      current when it was performed.
    - A handler reads the fields it closes over from the render it was
      created in, and writes through the state setters.
    - [await f(x)] either yields the resolved value or throws the rejection
      reason; [try/catch/finally] have their JavaScript meaning.
    - A handler is first followed on its own, from its first statement
      to its completion. The live page ([SignupLive]) then cuts the handlers
      of the signup page at their awaits, so that events of the user and
      answers of the provider fall between the stretches in any order.
    - What a component renders is the list of its elements whose content or
      presence depends on the state, with the properties the component
      passes them; the events of a page are those of the inputs, forms and
      buttons on display. *)

From Stdlib Require Import List String Ascii NArith ZArith Bool Lia.
Import ListNotations.

Set Implicit Arguments.

(* ===================================================================== *)
(** ** JavaScript values and strings *)
(* ===================================================================== *)

Module Js.

(** A string is a list of UTF-16 code units. *)
Definition jsstring := list N.

(** The code units of an ASCII literal. *)
Definition str (s : string) : jsstring :=
  map N_of_ascii (list_ascii_of_string s).

Fixpoint eqb (s t : jsstring) : bool :=
  match s, t with
  | [], [] => true
  | a :: s', b :: t' => N.eqb a b && eqb s' t'
  | _, _ => false
  end.

(** [s.length === 0], which for a string is [!s]. *)
Definition isEmpty (s : jsstring) : bool :=
  match s with [] => true | _ :: _ => false end.

(** WhiteSpace and LineTerminator code points of ECMAScript, the ones
    [String.prototype.trim] strips and the regular expression class
    [\s] matches. *)
Definition isWhiteSpace (c : N) : bool :=
  ((9 <=? c) && (c <=? 13) || (c =? 32) || (c =? 160) || (c =? 5760)
   || (8192 <=? c) && (c <=? 8202) || (c =? 8232) || (c =? 8233)
   || (c =? 8239) || (c =? 8287) || (c =? 12288) || (c =? 65279))%N.

Fixpoint trimStart (s : jsstring) : jsstring :=
  match s with
  | [] => []
  | c :: s' => if isWhiteSpace c then trimStart s' else s
  end.

Definition trimEnd (s : jsstring) : jsstring := rev (trimStart (rev s)).

(** [s.trim()] *)
Definition trim (s : jsstring) : jsstring := trimEnd (trimStart s).

#[local] Set Warnings "-register-all".

(** The values a [catch] clause can receive. An object is given by the
    properties visible on it (own or inherited), first binding first. *)
Inductive value : Type :=
| VUndefined
| VNull
| VBoolean (b : bool)
| VNumber (n : Z)
| VString (s : jsstring)
| VFunction
| VObject (props : list (jsstring * value)).

(** [typeof v] *)
Definition typeof (v : value) : jsstring :=
  match v with
  | VUndefined => str "undefined"
  | VNull => str "object"
  | VBoolean _ => str "boolean"
  | VNumber _ => str "number"
  | VString _ => str "string"
  | VFunction => str "function"
  | VObject _ => str "object"
  end.

Definition isNull (v : value) : bool :=
  match v with VNull => true | _ => false end.

Fixpoint lookup (k : jsstring) (props : list (jsstring * value)) : option value :=
  match props with
  | [] => None
  | (k', v) :: rest => if eqb k k' then Some v else lookup k rest
  end.

(** [k in v], for [v] an object. *)
Definition hasProperty (k : jsstring) (v : value) : bool :=
  match v with
  | VObject props => match lookup k props with Some _ => true | None => false end
  | _ => false
  end.

(** [v.k], for [v] an object. *)
Definition getProperty (k : jsstring) (v : value) : value :=
  match v with
  | VObject props => match lookup k props with Some x => x | None => VUndefined end
  | _ => VUndefined
  end.

(** [v === s] for a string [s]. *)
Definition strictEqualsString (v : value) (s : jsstring) : bool :=
  match v with
  | VString t => eqb t s
  | _ => false
  end.

(** How an awaited call or a statement completes. *)
Inductive completion (A : Type) : Type :=
| Normal (a : A)
| Throw (reason : value).
Arguments Throw {A} reason.

End Js.

Import Js.

(* ===================================================================== *)
(** ** Effects and the handler monad *)
(* ===================================================================== *)

(** What a handler does to the outside of the component. *)
Inductive Effect : Type :=
| PreventDefault
| Alert (message : jsstring)
| CallSignup (email password name : jsstring)
| CallVerifyCode (email code : jsstring)
| CallResendCode (email : jsstring)
| CallGetRecommendations (query : jsstring)
| HandleApiError (err : value)
| Navigate (path : jsstring).

(** The calls that go to the network: the identity provider adapter and the
    recommendation API client. *)
Definition isNetworkCall (e : Effect) : bool :=
  match e with
  | CallSignup _ _ _ | CallVerifyCode _ _ | CallResendCode _
  | CallGetRecommendations _ => true
  | _ => false
  end.

Section Handler.

(** [V]: the view state of the component; [W]: the state of the world. *)
Variables V W : Type.

Record Machine : Type := mkMachine {
  view : V;
  world : W;
  trace : list (Effect * V)
}.

Definition M (A : Type) : Type := Machine -> completion A * Machine.

Definition ret {A} (a : A) : M A := fun m => (Normal a, m).

Definition bind {A B} (c : M A) (k : A -> M B) : M B :=
  fun m =>
    match c m with
    | (Normal a, m') => k a m'
    | (Throw r, m') => (Throw r, m')
    end.

(** A state setter: [setX(v)]. *)
Definition setState (f : V -> V) : M unit :=
  fun m => (Normal tt, mkMachine (f (view m)) (world m) (trace m)).

(** A synchronous effect that returns normally. *)
Definition perform (e : Effect) : M unit :=
  fun m => (Normal tt, mkMachine (view m) (world m) (trace m ++ [(e, view m)])).

(** [await call]: the call is recorded, the world answers and moves on. *)
Definition await {A} (e : Effect) (call : W -> completion A * W) : M A :=
  fun m =>
    let (r, w') := call (world m) in
    (r, mkMachine (view m) w' (trace m ++ [(e, view m)])).

(** [try { body } catch (err) { handler err }] *)
Definition tryCatch {A} (body : M A) (handler : value -> M A) : M A :=
  fun m =>
    match body m with
    | (Normal a, m') => (Normal a, m')
    | (Throw r, m') => handler r m'
    end.

(** [try { body } finally { fin }]: [fin] runs on every exit of [body]; a
    throw of [fin] replaces the completion of [body]. *)
Definition tryFinally {A} (body : M A) (fin : M unit) : M A :=
  fun m =>
    match body m with
    | (r, m') =>
        match fin m' with
        | (Normal _, m'') => (r, m'')
        | (Throw r', m'') => (Throw r', m'')
        end
    end.

(** Run a handler created in the render showing [v], in world [w]. *)
Definition run {A} (c : M A) (v : V) (w : W) : completion A * Machine :=
  c (mkMachine v w []).

Definition outcome {A} (r : completion A * Machine) : completion A := fst r.
Definition final {A} (r : completion A * Machine) : V := view (snd r).
Definition effects {A} (r : completion A * Machine) : list (Effect * V) :=
  trace (snd r).

End Handler.

Arguments ret {V W A} a.
Arguments bind {V W A B} c k.
Arguments setState {V W} f.
Arguments perform {V W} e.
Arguments await {V W A} e call.
Arguments tryCatch {V W A} body handler.
Arguments tryFinally {V W A} body fin.
Arguments run {V W A} c v w.
Arguments outcome {V W A} r.
Arguments final {V W A} r.
Arguments effects {V W A} r.

(** Modelled from the spec: [handleApiError] of [@/utils/errorHandling] is
    not part of the sources at hand; it "consumes an arbitrary
    thrown/rejected value and performs a user-visible notification". It is
    taken to return normally. *)
Definition handleApiError {V W : Type} (err : value) : M V W unit :=
  perform (HandleApiError err).

Declare Scope handler_scope.
Delimit Scope handler_scope with handler.
Notation "c ;; k" := (bind c (fun _ => k))
  (at level 61, right associativity) : handler_scope.
Notation "x <- c ;; k" := (bind c (fun x => k))
  (at level 61, c at next level, right associativity) : handler_scope.

(** The effects of a trace, without the view snapshots. *)
Definition performed {V} (t : list (Effect * V)) : list Effect := map fst t.

(** The network calls of a trace. *)
Definition networkCalls {V} (t : list (Effect * V)) : list Effect :=
  filter isNetworkCall (performed t).

(** The view snapshots taken at network calls all satisfy [p]. *)
Definition duringCalls {V} (p : V -> bool) (t : list (Effect * V)) : Prop :=
  forall e v, In (e, v) t -> isNetworkCall e = true -> p v = true.

(* ===================================================================== *)
(** ** [src/pages/Recommendations.tsx] *)
(* ===================================================================== *)

Module Recommendations.

(** The three [useState] cells of the component. *)
Record View : Type := mkView {
  query : jsstring;
  recommendationText : jsstring;
  isLoading : bool
}.

Definition setRecommendationText (t : jsstring) (v : View) : View :=
  mkView (query v) t (isLoading v).
Definition setIsLoading (b : bool) (v : View) : View :=
  mkView (query v) (recommendationText v) b.

(** What [getRecommendations] resolves to. *)
Record Result : Type := mkResult { recommendations : jsstring }.

Section Panel.

Variable W : Type.
(** [getRecommendations] of [@/services/api]. *)
Variable getRecommendations : jsstring -> W -> completion Result * W.

Local Open Scope handler_scope.

(** [handleGetRecommendations], created in the render showing [c]. *)
Definition handleGetRecommendations (c : View) : M View W unit :=
  if isEmpty (trim (query c)) then
    perform (Alert (str "Please enter a query"))
  else
    setState (setIsLoading true) ;;
    setState (setRecommendationText []) ;;
    tryFinally
      (tryCatch
         (result <- await (CallGetRecommendations (query c))
                          (getRecommendations (query c)) ;;
          setState (setRecommendationText (recommendations result)))
         (fun error => handleApiError error))
      (setState (setIsLoading false)).

End Panel.

End Recommendations.

(* ===================================================================== *)
(** ** [@/utils/validation] *)
(* ===================================================================== *)

Module Validation.

(** Modelled from the spec: [validateRequired] of [@/utils/validation] is
    not part of the sources at hand; the validation contract reads
    "required, non-empty after trimming". *)
Definition validateRequired (s : jsstring) : bool := negb (isEmpty (trim s)).

Definition isUpper (c : N) : bool := ((65 <=? c) && (c <=? 90))%N.
Definition isLower (c : N) : bool := ((97 <=? c) && (c <=? 122))%N.
Definition isDigit (c : N) : bool := ((48 <=? c) && (c <=? 57))%N.

(** Modelled from the spec: [validatePassword] of [@/utils/validation] is
    not part of the sources at hand; the contract reads "a minimum-length-8
    policy with at least one uppercase letter, one lowercase letter, and
    one digit". *)
Definition validatePassword (s : jsstring) : bool :=
  (8 <=? List.length s)%nat && existsb isUpper s && existsb isLower s
  && existsb isDigit s.

Definition isAt (c : N) : bool := (c =? 64)%N.
Definition isDot (c : N) : bool := (c =? 46)%N.

(** The text before the first [@] and the text after it. *)
Fixpoint splitAtSign (s : jsstring) : option (jsstring * jsstring) :=
  match s with
  | [] => None
  | c :: s' =>
      if isAt c then Some ([], s')
      else match splitAtSign s' with
           | Some (l, d) => Some (c :: l, d)
           | None => None
           end
  end.

Definition plain (s : jsstring) : bool :=
  forallb (fun c => negb (isWhiteSpace c) && negb (isAt c)) s.

(** Modelled from the spec: [validateEmail] of [@/utils/validation] is not
    part of the sources at hand; the contract only says the address "must
    match a standard email syntax check". Taken here as the customary
    shape local@domain.tld: one [@], no white space, a non-empty local
    part, and a domain with a dot that is neither its first nor its last
    character. *)
Definition validateEmail (s : jsstring) : bool :=
  match splitAtSign s with
  | Some (l, d) =>
      negb (isEmpty l) && plain l && plain d
      && match d with
         | [] => false
         | _ :: t => existsb isDot (removelast t)
         end
  | None => false
  end.

End Validation.

(* ===================================================================== *)
(** ** [src/pages/Signup.tsx] *)
(* ===================================================================== *)

Module Signup.

Inductive SignupStep : Type := signup_step | verification_step.

(** [ErrorState]: every field is optional. *)
Record ErrorState : Type := mkErrors {
  err_name : option jsstring;
  err_email : option jsstring;
  err_password : option jsstring;
  err_confirmPassword : option jsstring;
  err_code : option jsstring
}.

Inductive ResendType : Type := success | error.

Record ResendStatus : Type := mkResendStatus {
  message : jsstring;
  type : ResendType
}.

(** The [useState] cells of the component. *)
Record View : Type := mkView {
  step : SignupStep;
  name : jsstring;
  email : jsstring;
  password : jsstring;
  confirmPassword : jsstring;
  verificationCode : jsstring;
  errors : ErrorState;
  isLoading : bool;
  resendStatus : option ResendStatus
}.

(** The state of the first render. *)
Definition initialView : View :=
  mkView signup_step [] [] [] [] [] (mkErrors None None None None None)
         false None.

Definition setStep (s : SignupStep) (v : View) : View :=
  mkView s (name v) (email v) (password v) (confirmPassword v)
         (verificationCode v) (errors v) (isLoading v) (resendStatus v).
Definition setErrors (e : ErrorState) (v : View) : View :=
  mkView (step v) (name v) (email v) (password v) (confirmPassword v)
         (verificationCode v) e (isLoading v) (resendStatus v).
Definition setIsLoading (b : bool) (v : View) : View :=
  mkView (step v) (name v) (email v) (password v) (confirmPassword v)
         (verificationCode v) (errors v) b (resendStatus v).
Definition setResendStatus (r : option ResendStatus) (v : View) : View :=
  mkView (step v) (name v) (email v) (password v) (confirmPassword v)
         (verificationCode v) (errors v) (isLoading v) r.

(** The object literal [{}] and assignments to its fields. *)
Definition noErrors : ErrorState := mkErrors None None None None None.
Definition withName (m : jsstring) (e : ErrorState) : ErrorState :=
  mkErrors (Some m) (err_email e) (err_password e) (err_confirmPassword e)
           (err_code e).
Definition withEmail (m : jsstring) (e : ErrorState) : ErrorState :=
  mkErrors (err_name e) (Some m) (err_password e) (err_confirmPassword e)
           (err_code e).
Definition withPassword (m : jsstring) (e : ErrorState) : ErrorState :=
  mkErrors (err_name e) (err_email e) (Some m) (err_confirmPassword e)
           (err_code e).
Definition withConfirmPassword (m : jsstring) (e : ErrorState) : ErrorState :=
  mkErrors (err_name e) (err_email e) (err_password e) (Some m) (err_code e).
Definition withCode (m : jsstring) (e : ErrorState) : ErrorState :=
  mkErrors (err_name e) (err_email e) (err_password e)
           (err_confirmPassword e) (Some m).

(** [Object.keys(e)]: the fields that are set. *)
Definition keys (e : ErrorState) : list jsstring :=
  (match err_name e with Some _ => [str "name"] | None => [] end)
  ++ (match err_email e with Some _ => [str "email"] | None => [] end)
  ++ (match err_password e with Some _ => [str "password"] | None => [] end)
  ++ (match err_confirmPassword e with
      | Some _ => [str "confirmPassword"] | None => [] end)
  ++ (match err_code e with Some _ => [str "code"] | None => [] end).

Section Controller.

Variable W : Type.

(** The identity provider adapter obtained from [useAuth]. *)
Variable signup : jsstring -> jsstring -> jsstring -> W -> completion unit * W.
Variable verifyCode : jsstring -> jsstring -> W -> completion unit * W.
Variable resendCode : jsstring -> W -> completion unit * W.

(** The helpers imported from [@/utils/validation]. *)
Variable validateRequired : jsstring -> bool.
Variable validateEmail : jsstring -> bool.
Variable validatePassword : jsstring -> bool.

Local Open Scope handler_scope.

(** The object [newErrors] that [validate] builds, statement by
    statement. *)
Definition newErrors (c : View) : ErrorState :=
  let e0 := noErrors in
  let e1 :=
    if negb (validateRequired (name c))
    then withName (str "Name is required") e0 else e0 in
  let e2 :=
    if negb (validateRequired (email c))
    then withEmail (str "Email is required") e1
    else if negb (validateEmail (email c))
         then withEmail (str "Invalid email format") e1 else e1 in
  let e3 :=
    if negb (validateRequired (password c))
    then withPassword (str "Password is required") e2
    else if negb (validatePassword (password c))
         then withPassword
                (str "Password must be at least 8 characters with uppercase, lowercase, and number")
                e2
         else e2 in
  let e4 :=
    if negb (eqb (password c) (confirmPassword c))
    then withConfirmPassword (str "Passwords do not match") e3 else e3 in
  e4.

(** [validate] *)
Definition validate (c : View) : M View W bool :=
  setState (setErrors (newErrors c)) ;;
  ret (Nat.eqb (List.length (keys (newErrors c))) 0).

(** The four rules of the validation contract as the specification words
    them: name present, email present and well-formed, password present and
    within the policy, confirmation equal to the password. *)
Definition nameOk (c : View) : bool := validateRequired (name c).
Definition emailOk (c : View) : bool :=
  validateRequired (email c) && validateEmail (email c).
Definition passwordOk (c : View) : bool :=
  validateRequired (password c) && validatePassword (password c).
Definition confirmOk (c : View) : bool := eqb (password c) (confirmPassword c).
Definition draftValid (c : View) : bool :=
  nameOk c && emailOk c && passwordOk c && confirmOk c.

(** The test of the [catch] clause of [handleSignupSubmit]. *)
Definition isUsernameExists (err : value) : bool :=
  eqb (typeof err) (str "object")
  && negb (isNull err)
  && hasProperty (str "name") err
  && strictEqualsString (getProperty (str "name") err)
                        (str "UsernameExistsException").

(** [handleSignupSubmit], created in the render showing [c]. *)
Definition handleSignupSubmit (c : View) : M View W unit :=
  perform PreventDefault ;;
  valid <- validate c ;;
  if negb valid then ret tt
  else
    setState (setIsLoading true) ;;
    setState (setResendStatus None) ;;
    tryFinally
      (tryCatch
         (await (CallSignup (email c) (password c) (name c))
                (signup (email c) (password c) (name c)) ;;
          setState (setStep verification_step))
         (fun err =>
            if isUsernameExists err then
              setState (setErrors
                (withEmail (str "User already exists. Please verify your email.")
                           noErrors)) ;;
              setState (setStep verification_step) ;;
              tryCatch
                (await (CallResendCode (email c)) (resendCode (email c)) ;;
                 setState (setResendStatus
                   (Some (mkResendStatus
                            (str "A new verification code has been sent to your email.")
                            success))))
                (fun _ => ret tt)
            else
              handleApiError err))
      (setState (setIsLoading false)).

(** [handleVerificationSubmit], created in the render showing [c]. *)
Definition handleVerificationSubmit (c : View) : M View W unit :=
  perform PreventDefault ;;
  if isEmpty (verificationCode c) then
    setState (setErrors (withCode (str "Verification code is required") noErrors))
  else
    setState (setIsLoading true) ;;
    tryFinally
      (tryCatch
         (await (CallVerifyCode (email c) (verificationCode c))
                (verifyCode (email c) (verificationCode c)) ;;
          perform (Navigate (str "/login")))
         (fun err =>
            handleApiError err ;;
            setState (setErrors (withCode (str "Invalid verification code") noErrors))))
      (setState (setIsLoading false)).

(** [handleResendCode], created in the render showing [c]. *)
Definition handleResendCode (c : View) : M View W unit :=
  setState (setResendStatus None) ;;
  tryCatch
    (await (CallResendCode (email c)) (resendCode (email c)) ;;
     setState (setResendStatus
       (Some (mkResendStatus (str "New code sent successfully!") success))))
    (fun _ =>
       setState (setResendStatus
         (Some (mkResendStatus
                  (str "Cannot send multiple emails in a short time. Please try again later.")
                  error)))).

End Controller.

(** The views a signup submission goes through once validation has passed:
    while the signup call is in flight, and on the recovery path while the
    automatic resend is in flight. *)
Definition submitting (c : View) : View :=
  setResendStatus None (setIsLoading true (setErrors noErrors c)).
Definition recovering (c : View) : View :=
  setStep verification_step
    (setErrors (withEmail (str "User already exists. Please verify your email.")
                          noErrors)
               (submitting c)).

(** The notification of a successful automatic resend. *)
Definition codeSentAgain : ResendStatus :=
  mkResendStatus (str "A new verification code has been sent to your email.")
                 success.

End Signup.

(* ===================================================================== *)
(** ** A sample world *)
(* ===================================================================== *)

(** A small identity provider and recommendation backend, used to run the
    handlers on concrete inputs. The provider knows the registered
    addresses, sends at most one code per address before it reports a rate
    limit, and accepts one fixed code. *)
Module Sample.

Record World : Type := mkWorld {
  accounts : list jsstring;
  codesSent : nat;
  online : bool
}.

Definition usernameExists : value :=
  VObject [(str "name", VString (str "UsernameExistsException"));
           (str "message", VString (str "User already exists"))].
Definition limitExceeded : value :=
  VObject [(str "name", VString (str "LimitExceededException"))].
Definition codeMismatch : value :=
  VObject [(str "name", VString (str "CodeMismatchException"))].
Definition networkError : value :=
  VObject [(str "name", VString (str "NetworkError"));
           (str "message", VString (str "Failed to fetch"))].

Definition signup (email password name : jsstring) (w : World)
  : completion unit * World :=
  if negb (online w) then (Throw networkError, w)
  else if existsb (eqb email) (accounts w) then (Throw usernameExists, w)
  else (Normal tt, mkWorld (email :: accounts w) (S (codesSent w)) (online w)).

Definition resendCode (email : jsstring) (w : World) : completion unit * World :=
  if negb (online w) then (Throw networkError, w)
  else if (codesSent w <? 1)%nat
       then (Normal tt, mkWorld (accounts w) (S (codesSent w)) (online w))
       else (Throw limitExceeded, w).

Definition verifyCode (email code : jsstring) (w : World)
  : completion unit * World :=
  if negb (online w) then (Throw networkError, w)
  else if eqb code (str "123456") then (Normal tt, w)
  else (Throw codeMismatch, w).

Definition getRecommendations (query : jsstring) (w : World)
  : completion Recommendations.Result * World :=
  if negb (online w) then (Throw networkError, w)
  else (Normal (Recommendations.mkResult (str "Dune, by Frank Herbert")), w).

(** A draft that passes the validation contract. *)
Definition goodDraft : Signup.View :=
  Signup.mkView Signup.signup_step (str "Ada") (str "a@b.com")
    (str "Abc12345") (str "Abc12345") []
    Signup.noErrors false None.

(** The verification form, with the given code typed in. *)
Definition verifying (code : jsstring) : Signup.View :=
  Signup.mkView Signup.verification_step (str "Ada") (str "a@b.com")
    (str "Abc12345") (str "Abc12345") code
    Signup.noErrors false None.

(** The draft of the specification's example: everything fine but the
    name. *)
Definition namelessDraft : Signup.View :=
  Signup.mkView Signup.signup_step [] (str "a@b.com")
    (str "Abc12345") (str "Abc12345") []
    Signup.noErrors false None.

(** A draft whose confirmation differs from an otherwise fine password. *)
Definition mismatchedDraft : Signup.View :=
  Signup.mkView Signup.signup_step (str "Ada") (str "a@b.com")
    (str "Abc12345") (str "Abc12346") []
    Signup.noErrors false None.

(** The same draft in a view that still holds a notification. *)
Definition notifiedDraft : Signup.View :=
  Signup.setResendStatus
    (Some (Signup.mkResendStatus (str "New code sent successfully!")
                                 Signup.success))
    mismatchedDraft.

(** The recommendation panel showing the result of an earlier request. *)
Definition answeredPanel : Recommendations.View :=
  Recommendations.mkView (str "space opera") (str "Dune, by Frank Herbert")
                         false.

Definition fresh : World := mkWorld [] 0 true.
Definition registered : World := mkWorld [str "a@b.com"] 0 true.
Definition registeredLimited : World := mkWorld [str "a@b.com"] 1 true.
Definition offline : World := mkWorld [str "a@b.com"] 0 false.

End Sample.

(** The handlers wired to the sample world and to the helpers above. *)
Abbreviation sampleSubmit :=
  (Signup.handleSignupSubmit Sample.signup Sample.resendCode
     Validation.validateRequired Validation.validateEmail
     Validation.validatePassword).
Abbreviation sampleValid :=
  (Signup.draftValid Validation.validateRequired Validation.validateEmail
     Validation.validatePassword).
Abbreviation sampleVerify := (Signup.handleVerificationSubmit Sample.verifyCode).

(* ===================================================================== *)
(** ** What [Recommendations] renders *)
(* ===================================================================== *)

Module RecommendationsPage.
Import Recommendations.

(** [setQuery], used by the text area and by the example buttons. *)
Definition setQuery (q : jsstring) (v : View) : View :=
  mkView q (recommendationText v) (isLoading v).

Definition exampleQueries : list jsstring :=
  [str "I love mystery novels with strong female protagonists";
   str "Looking for science fiction books about space exploration";
   str "Recommend me some feel-good romance novels";
   str "I want to read about personal development and productivity"].

(** The elements of the page whose content or presence depends on the
    state, with the texts and properties the component gives them. Icons,
    wrappers and class names are left out. *)
Inductive Element : Type :=
| Title (text : jsstring)
| Lead (text : jsstring)
| QueryBox (label value placeholder : jsstring)
| ExampleButton (key : nat) (text : jsstring)
| GetButton (disabled : bool) (label : jsstring)
| Spinner
| ResultBlock (heading text : jsstring).

(** [exampleQueries.map((example, index) => <button key={index} ...>)] *)
Fixpoint exampleButtons (index : nat) (examples : list jsstring) : list Element :=
  match examples with
  | [] => []
  | example :: rest => ExampleButton index example :: exampleButtons (S index) rest
  end.

(** The [return (...)] of the component. *)
Definition render (v : View) : list Element :=
  [Title (str "AI-Powered Recommendations");
   Lead (str "Tell us what you're looking for, and our AI will suggest the perfect books for you");
   QueryBox (str "What kind of book are you looking for?") (query v)
            (str "Describe your ideal book...")]
  ++ exampleButtons 0 exampleQueries
  ++ [GetButton (isLoading v)
        (if isLoading v then str "Getting Recommendations..."
         else str "Get Recommendations")]
  ++ (if isLoading v then [Spinner] else [])
  ++ (if negb (isLoading v) && negb (isEmpty (recommendationText v))
      then [ResultBlock (str "AI Recommendation") (recommendationText v)]
      else []).

Definition isSpinner (e : Element) : bool :=
  match e with Spinner => true | _ => false end.
Definition isResultBlock (e : Element) : bool :=
  match e with ResultBlock _ _ => true | _ => false end.

(** The result blocks on display. *)
Definition resultsShown (v : View) : list Element := filter isResultBlock (render v).
(** The busy indicators on display. *)
Definition spinnersShown (v : View) : list Element := filter isSpinner (render v).

End RecommendationsPage.

(* ===================================================================== *)
(** ** What [Signup] renders, and the events of the page *)
(* ===================================================================== *)

Module SignupPage.
Import Signup.

(** The remaining state setters, used by the [onChange] of the inputs. *)
Definition setName (s : jsstring) (v : View) : View :=
  mkView (step v) s (email v) (password v) (confirmPassword v)
         (verificationCode v) (errors v) (isLoading v) (resendStatus v).
Definition setEmail (s : jsstring) (v : View) : View :=
  mkView (step v) (name v) s (password v) (confirmPassword v)
         (verificationCode v) (errors v) (isLoading v) (resendStatus v).
Definition setPassword (s : jsstring) (v : View) : View :=
  mkView (step v) (name v) (email v) s (confirmPassword v)
         (verificationCode v) (errors v) (isLoading v) (resendStatus v).
Definition setConfirmPassword (s : jsstring) (v : View) : View :=
  mkView (step v) (name v) (email v) (password v) s
         (verificationCode v) (errors v) (isLoading v) (resendStatus v).
Definition setVerificationCode (s : jsstring) (v : View) : View :=
  mkView (step v) (name v) (email v) (password v) (confirmPassword v)
         s (errors v) (isLoading v) (resendStatus v).

(** The state cell an input writes to. *)
Inductive Field : Type :=
| NameField | EmailField | PasswordField | ConfirmPasswordField | CodeField.

(** The handlers of the component. *)
Inductive Handler : Type := SignupSubmit | VerificationSubmit | ResendCode.

Definition Field_eqb (f g : Field) : bool :=
  match f, g with
  | NameField, NameField | EmailField, EmailField
  | PasswordField, PasswordField
  | ConfirmPasswordField, ConfirmPasswordField | CodeField, CodeField => true
  | _, _ => false
  end.

Definition Handler_eqb (h k : Handler) : bool :=
  match h, k with
  | SignupSubmit, SignupSubmit | VerificationSubmit, VerificationSubmit
  | ResendCode, ResendCode => true
  | _, _ => false
  end.

(** The children of a form, with the properties the component passes. *)
Inductive Control : Type :=
| Input (label : jsstring) (type : option jsstring) (value : jsstring)
        (onChange : Field) (error : option jsstring)
| Note (className message : jsstring)
| SubmitButton (disabled : bool) (label : jsstring)
| PlainButton (onClick : Handler) (label : jsstring).

(** The elements of the page whose content or presence depends on the
    state. Wrappers and fixed class names are left out. *)
Inductive Element : Type :=
| Heading (text : jsstring)
| Subtitle (text : jsstring)
| Form (onSubmit : Handler) (controls : list Control)
| SignInHint (text linkTo linkLabel : jsstring).

Definition isSignup (s : SignupStep) : bool :=
  match s with signup_step => true | verification_step => false end.
Definition isVerification (s : SignupStep) : bool :=
  match s with signup_step => false | verification_step => true end.

(** The [return (...)] of the component. *)
Definition render (v : View) : list Element :=
  [Heading (if isSignup (step v) then str "Create Account"
            else str "Verify Email");
   Subtitle (if isSignup (step v)
             then str "Join us to discover your next favorite book"
             else str "We sent a code to " ++ email v)]
  ++ (if isSignup (step v) then
        [Form SignupSubmit
           [Input (str "Full Name") None (name v) NameField
                  (err_name (errors v));
            Input (str "Email") (Some (str "email")) (email v) EmailField
                  (err_email (errors v));
            Input (str "Password") (Some (str "password")) (password v)
                  PasswordField (err_password (errors v));
            Input (str "Confirm Password") (Some (str "password"))
                  (confirmPassword v) ConfirmPasswordField
                  (err_confirmPassword (errors v));
            SubmitButton (isLoading v)
              (if isLoading v then str "Creating account..."
               else str "Sign Up")]]
      else [])
  ++ (if isVerification (step v) then
        [Form VerificationSubmit
           ([Input (str "Verification Code") None (verificationCode v)
                   CodeField (err_code (errors v))]
            ++ match resendStatus v with
               | Some s =>
                   [Note (str "text-sm mt-2 "
                          ++ match type s with
                             | success => str "text-green-600"
                             | error => str "text-red-500"
                             end)
                         (message s)]
               | None => []
               end
            ++ [SubmitButton (isLoading v)
                  (if isLoading v then str "Verifying..."
                   else str "Confirm Account");
                PlainButton ResendCode (str "Resend Code")])]
      else [])
  ++ (if isSignup (step v)
      then [SignInHint (str "Already have an account? ") (str "/login")
                       (str "Sign in")]
      else []).

(** The controls on display, over all forms. *)
Definition controlsOf (e : Element) : list Control :=
  match e with Form _ cs => cs | _ => [] end.
Definition controlsShown (v : View) : list Control := flat_map controlsOf (render v).

(** The error messages handed to the inputs on display. *)
Definition errorOf (c : Control) : list jsstring :=
  match c with Input _ _ _ _ (Some m) => [m] | _ => [] end.
Definition errorsShown (v : View) : list jsstring :=
  flat_map errorOf (controlsShown v).

(** The submit buttons on display, by their [disabled] property. *)
Definition submitOf (c : Control) : list bool :=
  match c with SubmitButton d _ => [d] | _ => [] end.
Definition submitsShown (v : View) : list bool :=
  flat_map submitOf (controlsShown v).

(** An event of the user: typing into an input, submitting a form, or
    pressing a button that is not a submit button. *)
Inductive Action : Type :=
| Change (f : Field) (value : jsstring)
| Submit (h : Handler)
| Click (h : Handler).

(** The events the page on display can raise: those of the inputs, forms
    and buttons it contains. A form is taken to be submittable whenever it
    is on display, whether or not its submit button is disabled. *)
Definition controlOffers (a : Action) (c : Control) : bool :=
  match a, c with
  | Change f _, Input _ _ _ g _ => Field_eqb f g
  | Click h, PlainButton k _ => Handler_eqb h k
  | _, _ => false
  end.

Definition elementOffers (a : Action) (e : Element) : bool :=
  match e with
  | Form k cs =>
      match a with Submit h => Handler_eqb h k | _ => false end
      || existsb (controlOffers a) cs
  | _ => false
  end.

Definition offers (v : View) (a : Action) : bool :=
  existsb (elementOffers a) (render v).

(** [onChange={(e) => setX(e.target.value)}] *)
Definition change (f : Field) (s : jsstring) (v : View) : View :=
  match f with
  | NameField => setName s v
  | EmailField => setEmail s v
  | PasswordField => setPassword s v
  | ConfirmPasswordField => setConfirmPassword s v
  | CodeField => setVerificationCode s v
  end.

(** The five fields the user types. *)
Definition draftOf (v : View)
  : jsstring * jsstring * jsstring * jsstring * jsstring :=
  (name v, email v, password v, confirmPassword v, verificationCode v).

Section Page.

Variable W : Type.
Variable signup : jsstring -> jsstring -> jsstring -> W -> completion unit * W.
Variable verifyCode : jsstring -> jsstring -> W -> completion unit * W.
Variable resendCode : jsstring -> W -> completion unit * W.
Variable validateRequired : jsstring -> bool.
Variable validateEmail : jsstring -> bool.
Variable validatePassword : jsstring -> bool.

(** The handler behind a name, created in the render showing [c]. *)
Definition handlerOf (h : Handler) (c : View) : M View W unit :=
  match h with
  | SignupSubmit =>
      handleSignupSubmit signup resendCode validateRequired validateEmail
                         validatePassword c
  | VerificationSubmit => handleVerificationSubmit verifyCode c
  | ResendCode => handleResendCode resendCode c
  end.

(** The page between two events: what is shown, the world, and the effects
    performed since the page was opened. *)
Record Session : Type := mkSession {
  shown : View;
  provider : W;
  history : list Effect
}.

Definition start (w : W) : Session := mkSession initialView w [].

(** One event, with the handler it triggers run to completion: the page
    between two handler runs. (For the page with handlers suspended at their
    awaits, see [SignupLive].) *)
Definition dispatch (a : Action) (s : Session) : Session :=
  match a with
  | Change f x => mkSession (change f x (shown s)) (provider s) (history s)
  | Submit h | Click h =>
      let r := run (handlerOf h (shown s)) (shown s) (provider s) in
      mkSession (final r) (world (snd r))
                (history s ++ performed (effects r))
  end.

(** The sessions the user can bring about from a freshly opened page. *)
Inductive reachable (w0 : W) : Session -> Prop :=
| reach_start : reachable w0 (start w0)
| reach_next (s : Session) (a : Action) :
    reachable w0 s -> offers (shown s) a = true ->
    reachable w0 (dispatch a s).

(** What holds of a session between two events: the loading flag is clear,
    and a resend status is held only in the verification step. *)
Definition consistent (s : Session) : Prop :=
  isLoading (shown s) = false
  /\ (step (shown s) = signup_step -> resendStatus (shown s) = None).

(** A script of events; an event the page on display does not offer is
    skipped. *)
Fixpoint play (script : list Action) (s : Session) : Session :=
  match script with
  | [] => s
  | a :: rest =>
      if offers (shown s) a then play rest (dispatch a s) else play rest s
  end.

End Page.

End SignupPage.

(** A visit to the signup page of the sample world: an account is created
    for [a@b.com], a wrong code is tried, a new code is requested, and the
    right code is entered. *)
Definition sampleVisit : list SignupPage.Action :=
  [SignupPage.Change SignupPage.NameField (str "Ada");
   SignupPage.Change SignupPage.EmailField (str "a@b.com");
   SignupPage.Change SignupPage.PasswordField (str "Abc12345");
   SignupPage.Change SignupPage.ConfirmPasswordField (str "Abc12345");
   SignupPage.Submit SignupPage.SignupSubmit;
   SignupPage.Change SignupPage.CodeField (str "000000");
   SignupPage.Submit SignupPage.VerificationSubmit;
   SignupPage.Click SignupPage.ResendCode;
   SignupPage.Change SignupPage.CodeField (str "123456");
   SignupPage.Submit SignupPage.VerificationSubmit].

Abbreviation samplePlay :=
  (SignupPage.play Sample.signup Sample.verifyCode Sample.resendCode
     Validation.validateRequired Validation.validateEmail
     Validation.validatePassword).
Abbreviation sampleReachable :=
  (SignupPage.reachable Sample.signup Sample.verifyCode Sample.resendCode
     Validation.validateRequired Validation.validateEmail
     Validation.validatePassword).

Abbreviation sampleRequest :=
  (Recommendations.handleGetRecommendations Sample.getRecommendations).
Abbreviation sampleHandler :=
  (SignupPage.handlerOf Sample.signup Sample.verifyCode Sample.resendCode
     Validation.validateRequired Validation.validateEmail
     Validation.validatePassword).

(* ===================================================================== *)
(** ** The signup page with handlers suspended at their awaits *)
(* ===================================================================== *)

(** A handler runs in stretches: from the event to its first [await], and
    from the arrival of an answer to the next [await] or to the end. Between
    two stretches the page is live: the user can type, submit and press
    buttons, and the answers of the calls in flight arrive in any order.
    State setters write to the cells of the component as they are at that
    moment; what a handler reads is the render it was created in. *)
Module SignupLive.
Import Signup SignupPage.

(** A handler suspended at an [await]: the render it closed over and the
    answer on its way. *)
Inductive Pending : Type :=
| SignupPending (c : View) (answer : completion unit)
| AutoResendPending (c : View) (answer : completion unit)
| VerifyPending (c : View) (answer : completion unit)
| ResendPending (c : View) (answer : completion unit).

Definition isNavigate (e : Effect) : bool :=
  match e with Navigate _ => true | _ => false end.

(** [firstn i l ++ skipn (S i) l]: the list without its [i]-th element. *)
Definition without {A} (i : nat) (l : list A) : list A :=
  firstn i l ++ skipn (S i) l.

Section Live.

Variable W : Type.
Variable signup : jsstring -> jsstring -> jsstring -> W -> completion unit * W.
Variable verifyCode : jsstring -> jsstring -> W -> completion unit * W.
Variable resendCode : jsstring -> W -> completion unit * W.
Variable validateRequired : jsstring -> bool.
Variable validateEmail : jsstring -> bool.
Variable validatePassword : jsstring -> bool.

(** What one stretch of a handler leaves behind: the cells as written, the
    world, the effects performed, and the [await] it stopped at, if any. *)
Record Stretch : Type := mkStretch {
  written : View;
  answered : W;
  performedNow : list Effect;
  awaiting : option Pending
}.

(** [handleSignupSubmit] up to [await signup(...)], or to the early
    [return]. The handler was created in the render showing [v]. *)
Definition beginSignup (v : View) (w : W) : Stretch :=
  let errs := newErrors validateRequired validateEmail validatePassword v in
  if Nat.eqb (List.length (keys errs)) 0 then
    let (answer, w') := signup (email v) (password v) (name v) w in
    mkStretch (setResendStatus None (setIsLoading true (setErrors errs v))) w'
      [PreventDefault; CallSignup (email v) (password v) (name v)]
      (Some (SignupPending v answer))
  else
    mkStretch (setErrors errs v) w [PreventDefault] None.

(** [handleVerificationSubmit] up to [await verifyCode(...)], or to the
    early [return]. *)
Definition beginVerification (v : View) (w : W) : Stretch :=
  if isEmpty (verificationCode v) then
    mkStretch
      (setErrors (withCode (str "Verification code is required") noErrors) v)
      w [PreventDefault] None
  else
    let (answer, w') := verifyCode (email v) (verificationCode v) w in
    mkStretch (setIsLoading true v) w'
      [PreventDefault; CallVerifyCode (email v) (verificationCode v)]
      (Some (VerifyPending v answer)).

(** [handleResendCode] up to [await resendCode(...)]. *)
Definition beginResend (v : View) (w : W) : Stretch :=
  let (answer, w') := resendCode (email v) w in
  mkStretch (setResendStatus None v) w' [CallResendCode (email v)]
    (Some (ResendPending v answer)).

Definition begin (h : Handler) (v : View) (w : W) : Stretch :=
  match h with
  | SignupSubmit => beginSignup v w
  | VerificationSubmit => beginVerification v w
  | ResendCode => beginResend v w
  end.

(** A suspended handler taken up again when its answer arrives, with the
    cells showing [v]: to the next [await] or through [catch] and [finally]
    to the end. *)
Definition resume (p : Pending) (v : View) (w : W) : Stretch :=
  match p with
  | SignupPending c (Normal _) =>
      mkStretch (setIsLoading false (setStep verification_step v)) w [] None
  | SignupPending c (Throw err) =>
      if isUsernameExists err then
        let (answer, w') := resendCode (email c) w in
        mkStretch
          (setStep verification_step
             (setErrors
                (withEmail (str "User already exists. Please verify your email.")
                           noErrors)
                v))
          w' [CallResendCode (email c)] (Some (AutoResendPending c answer))
      else
        mkStretch (setIsLoading false v) w [HandleApiError err] None
  | AutoResendPending c (Normal _) =>
      mkStretch
        (setIsLoading false
           (setResendStatus
              (Some (mkResendStatus
                       (str "A new verification code has been sent to your email.")
                       success))
              v))
        w [] None
  | AutoResendPending c (Throw _) =>
      mkStretch (setIsLoading false v) w [] None
  | VerifyPending c (Normal _) =>
      mkStretch (setIsLoading false v) w [Navigate (str "/login")] None
  | VerifyPending c (Throw err) =>
      mkStretch
        (setIsLoading false
           (setErrors (withCode (str "Invalid verification code") noErrors) v))
        w [HandleApiError err] None
  | ResendPending c (Normal _) =>
      mkStretch
        (setResendStatus
           (Some (mkResendStatus (str "New code sent successfully!") success))
           v)
        w [] None
  | ResendPending c (Throw _) =>
      mkStretch
        (setResendStatus
           (Some (mkResendStatus
                    (str "Cannot send multiple emails in a short time. Please try again later.")
                    error))
           v)
        w [] None
  end.

(** The stretches of a handler run one after the other with nothing in
    between: the cells, the world and the effects at the end. No handler has
    more than two awaits on a path. *)
Definition inOneGo (h : Handler) (c : View) (w : W) : View * W * list Effect :=
  let x1 := begin h c w in
  match awaiting x1 with
  | None => (written x1, answered x1, performedNow x1)
  | Some p1 =>
      let x2 := resume p1 (written x1) (answered x1) in
      match awaiting x2 with
      | None => (written x2, answered x2, performedNow x1 ++ performedNow x2)
      | Some p2 =>
          let x3 := resume p2 (written x2) (answered x2) in
          (written x3, answered x3,
           performedNow x1 ++ performedNow x2 ++ performedNow x3)
      end
  end.

(** The live page: the cells, the world, the effects so far, the handlers
    suspended at an await, and whether the component is still mounted
    ([navigate] takes the user to another page). *)
Record Live : Type := mkLive {
  onScreen : View;
  backend : W;
  past : list Effect;
  inFlight : list Pending;
  mounted : bool
}.

Definition opened (w : W) : Live := mkLive initialView w [] [] true.

(** What happens next: an event of the user, or the arrival of the answer
    of the [i]-th call in flight. *)
Inductive Happening : Type :=
| ByUser (a : Action)
| Answer (i : nat).

(** The page after a stretch, [rest] being the handlers still suspended. *)
Definition absorb (s : Live) (rest : list Pending) (x : Stretch) : Live :=
  mkLive (written x) (answered x) (past s ++ performedNow x)
         (rest ++ match awaiting x with Some p => [p] | None => [] end)
         (mounted s && negb (existsb isNavigate (performedNow x))).

(** One happening, if the page allows it: an event needs the component
    mounted and a control on display that raises it; an answer needs its
    call in flight. *)
Definition happen (ev : Happening) (s : Live) : option Live :=
  match ev with
  | ByUser a =>
      if mounted s && offers (onScreen s) a then
        Some match a with
             | Change f x =>
                 mkLive (change f x (onScreen s)) (backend s) (past s)
                        (inFlight s) (mounted s)
             | Submit h | Click h =>
                 absorb s (inFlight s) (begin h (onScreen s) (backend s))
             end
      else None
  | Answer i =>
      match nth_error (inFlight s) i with
      | Some p =>
          Some (absorb s (without i (inFlight s))
                       (resume p (onScreen s) (backend s)))
      | None => None
      end
  end.

(** The pages that can come about from a freshly opened one. *)
Inductive comesAbout (w0 : W) : Live -> Prop :=
| about_opened : comesAbout w0 (opened w0)
| about_next (s s' : Live) (ev : Happening) :
    comesAbout w0 s -> happen ev s = Some s' -> comesAbout w0 s'.

(** A course of happenings; one the page does not allow is skipped. *)
Fixpoint unfold (course : list Happening) (s : Live) : Live :=
  match course with
  | [] => s
  | ev :: rest =>
      match happen ev s with
      | Some s' => unfold rest s'
      | None => unfold rest s
      end
  end.

(** Whether a suspended handler was started from the verification form, or
    is past the point where [handleSignupSubmit] sets the step. *)
Definition pastSignup (p : Pending) : bool :=
  match p with SignupPending _ _ => false | _ => true end.


End Live.

End SignupLive.

(** A visit in which the user corrects the email while the signup call is
    still in flight, and then enters the code. *)
Definition hastyVisit : list SignupLive.Happening :=
  [SignupLive.ByUser (SignupPage.Change SignupPage.NameField (str "Ada"));
   SignupLive.ByUser (SignupPage.Change SignupPage.EmailField (str "a@b.com"));
   SignupLive.ByUser (SignupPage.Change SignupPage.PasswordField (str "Abc12345"));
   SignupLive.ByUser
     (SignupPage.Change SignupPage.ConfirmPasswordField (str "Abc12345"));
   SignupLive.ByUser (SignupPage.Submit SignupPage.SignupSubmit);
   SignupLive.ByUser (SignupPage.Change SignupPage.EmailField (str "a@c.com"));
   SignupLive.Answer 0;
   SignupLive.ByUser (SignupPage.Change SignupPage.CodeField (str "123456"));
   SignupLive.ByUser (SignupPage.Submit SignupPage.VerificationSubmit);
   SignupLive.Answer 0].


(** The verification form of the sample world, with a code typed in and
    nothing in flight. *)
Definition verifyingPage (code : jsstring) : SignupLive.Live Sample.World :=
  SignupLive.mkLive (Sample.verifying code) Sample.registered [] [] true.

(** Submitting the code, and the arrival of the answer. *)
Definition codeSubmitted : list SignupLive.Happening :=
  [SignupLive.ByUser (SignupPage.Submit SignupPage.VerificationSubmit)].
Definition codeAnswered : list SignupLive.Happening := [SignupLive.Answer 0].

(** A wrong code, a request for a new one, and the right code, with the
    answers arriving late. *)
Definition patientVisit : list SignupLive.Happening :=
  [SignupLive.ByUser (SignupPage.Submit SignupPage.VerificationSubmit);
   SignupLive.ByUser (SignupPage.Click SignupPage.ResendCode);
   SignupLive.ByUser (SignupPage.Change SignupPage.CodeField (str "123456"));
   SignupLive.Answer 1;
   SignupLive.Answer 0;
   SignupLive.ByUser (SignupPage.Submit SignupPage.VerificationSubmit);
   SignupLive.Answer 0].

Abbreviation sampleUnfold :=
  (SignupLive.unfold Sample.signup Sample.verifyCode Sample.resendCode
     Validation.validateRequired Validation.validateEmail
     Validation.validatePassword).
Abbreviation sampleComesAbout :=
  (SignupLive.comesAbout Sample.signup Sample.verifyCode Sample.resendCode
     Validation.validateRequired Validation.validateEmail
     Validation.validatePassword).
Abbreviation sampleHappen :=
  (SignupLive.happen Sample.signup Sample.verifyCode Sample.resendCode
     Validation.validateRequired Validation.validateEmail
     Validation.validatePassword).

(* ===================================================================== *)
(** ** Facts about strings and values *)
(* ===================================================================== *)

Lemma eqb_refl (s : jsstring) : eqb s s = true.
Proof.
  induction s as [|a s IH]; simpl; [reflexivity|].
  now rewrite N.eqb_refl, IH.
Qed.

Lemma eqb_eq (s t : jsstring) : eqb s t = true <-> s = t.
Proof.
  split; [|intros ->; apply eqb_refl].
  revert t; induction s as [|a s IH]; intros [|b t]; simpl; try discriminate.
  - reflexivity.
  - intros H. apply andb_true_iff in H as [Hab Hst].
    apply N.eqb_eq in Hab. apply IH in Hst. now subst.
Qed.

Lemma eqb_neq (s t : jsstring) : eqb s t = false <-> s <> t.
Proof.
  split.
  - intros H E. apply eqb_eq in E. congruence.
  - intros H. destruct (eqb s t) eqn:E; [|reflexivity].
    apply eqb_eq in E. contradiction.
Qed.

Lemma isEmpty_false (s : jsstring) : isEmpty s = false <-> s <> [].
Proof. destruct s; simpl; split; congruence. Qed.

Lemma duringCalls_nil {V} (p : V -> bool) : duringCalls p [].
Proof. intros e v []. Qed.

Lemma duringCalls_cons {V} (p : V -> bool) (e : Effect) (v : V)
      (t : list (Effect * V)) :
  (isNetworkCall e = true -> p v = true) ->
  duringCalls p t -> duringCalls p ((e, v) :: t).
Proof.
  intros H Ht e' v' [E|I] N.
  - inversion E; subst. now apply H.
  - now apply (Ht e' v').
Qed.

(** Settles [duringCalls] on a trace that is written out. *)
Ltac settle_calls :=
  repeat (apply duringCalls_cons;
          [simpl; intros; first [reflexivity | discriminate]|]);
  apply duringCalls_nil.

(** An object whose [name] is the given string passes a test of the shape
    [typeof v === 'object' && v !== null && 'name' in v && v.name === s]. *)
Lemma named_object_discriminated (props : list (jsstring * value)) (s : jsstring) :
  lookup (str "name") props = Some (VString s) ->
  eqb (typeof (VObject props)) (str "object")
  && negb (isNull (VObject props))
  && hasProperty (str "name") (VObject props)
  && strictEqualsString (getProperty (str "name") (VObject props)) s = true.
Proof.
  intros H. unfold hasProperty, getProperty. rewrite H. simpl.
  apply eqb_refl.
Qed.

(* ===================================================================== *)
(** ** The recommendation panel *)
(* ===================================================================== *)

Module RecommendationsFacts.
Import Recommendations.

Section Facts.
Variable W : Type.
Variable getRecommendations : jsstring -> W -> completion Result * W.

Abbreviation handler := (handleGetRecommendations getRecommendations).

(** A blank query is refused locally. *)
Lemma blank_query_alerts (c : View) (w : W) :
  isEmpty (trim (query c)) = true ->
  run (handler c) c w
  = (Normal tt,
     mkMachine c w [(Alert (str "Please enter a query"), c)]).
Proof.
  intros H. unfold run, handler, handleGetRecommendations. rewrite H.
  reflexivity.
Qed.

(** A request that resolves. *)
Lemma request_resolved (c : View) (w w' : W) (res : Result) :
  isEmpty (trim (query c)) = false ->
  getRecommendations (query c) w = (Normal res, w') ->
  run (handler c) c w
  = (Normal tt,
     mkMachine (mkView (query c) (recommendations res) false) w'
       [(CallGetRecommendations (query c), mkView (query c) [] true)]).
Proof.
  intros H E. unfold run, handler, handleGetRecommendations. rewrite H.
  unfold bind, tryFinally, tryCatch, await, setState; simpl.
  rewrite E. reflexivity.
Qed.

(** A request that rejects. *)
Lemma request_rejected (c : View) (w w' : W) (err : value) :
  isEmpty (trim (query c)) = false ->
  getRecommendations (query c) w = (Throw err, w') ->
  run (handler c) c w
  = (Normal tt,
     mkMachine (mkView (query c) [] false) w'
       [(CallGetRecommendations (query c), mkView (query c) [] true);
        (HandleApiError err, mkView (query c) [] true)]).
Proof.
  intros H E. unfold run, handler, handleGetRecommendations. rewrite H.
  unfold bind, tryFinally, tryCatch, await, setState, handleApiError, perform;
    simpl.
  rewrite E. reflexivity.
Qed.

End Facts.

End RecommendationsFacts.

(* ===================================================================== *)
(** ** The signup and verification controller *)
(* ===================================================================== *)

Module SignupFacts.
Import Signup.

Section Facts.
Variable W : Type.
Variable signup : jsstring -> jsstring -> jsstring -> W -> completion unit * W.
Variable verifyCode : jsstring -> jsstring -> W -> completion unit * W.
Variable resendCode : jsstring -> W -> completion unit * W.
Variable validateRequired : jsstring -> bool.
Variable validateEmail : jsstring -> bool.
Variable validatePassword : jsstring -> bool.

Abbreviation newErrors := (newErrors validateRequired validateEmail validatePassword).
Abbreviation draftValid := (draftValid validateRequired validateEmail validatePassword).
Abbreviation validate := (@validate W validateRequired validateEmail validatePassword).
Abbreviation handleSignupSubmit :=
  (handleSignupSubmit signup resendCode validateRequired validateEmail
                      validatePassword).
Abbreviation handleVerificationSubmit := (handleVerificationSubmit verifyCode).
Abbreviation handleResendCode := (handleResendCode resendCode).

Ltac split_rules c :=
  destruct (validateRequired (name c)), (validateRequired (email c)),
    (validateEmail (email c)), (validateRequired (password c)),
    (validatePassword (password c)), (eqb (password c) (confirmPassword c)).

Ltac step_handler :=
  unfold bind, ret, tryFinally, tryCatch, await, setState, handleApiError,
    perform; simpl.

(** *** [validate] against the contract *)

(** Counting the keys of [newErrors] decides the four rules. *)
Lemma validate_agrees (c : View) :
  Nat.eqb (List.length (keys (newErrors c))) 0 = draftValid c.
Proof.
  unfold Signup.newErrors, Signup.draftValid, nameOk, emailOk, passwordOk, confirmOk.
  split_rules c; reflexivity.
Qed.

Lemma newErrors_valid (c : View) :
  draftValid c = true -> newErrors c = noErrors.
Proof.
  unfold Signup.newErrors, Signup.draftValid, nameOk, emailOk, passwordOk, confirmOk.
  split_rules c; simpl; congruence.
Qed.

Lemma newErrors_name (c : View) :
  err_name (newErrors c)
  = if validateRequired (name c) then None else Some (str "Name is required").
Proof. unfold Signup.newErrors. split_rules c; reflexivity. Qed.

Lemma newErrors_email (c : View) :
  err_email (newErrors c)
  = if validateRequired (email c)
    then if validateEmail (email c) then None
         else Some (str "Invalid email format")
    else Some (str "Email is required").
Proof. unfold Signup.newErrors. split_rules c; reflexivity. Qed.

Lemma newErrors_password (c : View) :
  err_password (newErrors c)
  = if validateRequired (password c)
    then if validatePassword (password c) then None
         else Some (str "Password must be at least 8 characters with uppercase, lowercase, and number")
    else Some (str "Password is required").
Proof. unfold Signup.newErrors. split_rules c; reflexivity. Qed.

Lemma newErrors_confirmPassword (c : View) :
  err_confirmPassword (newErrors c)
  = if eqb (password c) (confirmPassword c) then None
    else Some (str "Passwords do not match").
Proof. unfold Signup.newErrors. split_rules c; reflexivity. Qed.

Lemma newErrors_code (c : View) : err_code (newErrors c) = None.
Proof. unfold Signup.newErrors. split_rules c; reflexivity. Qed.

Lemma run_validate (c : View) (w : W) :
  run (validate c) c w
  = (Normal (draftValid c), mkMachine (setErrors (newErrors c) c) w []).
Proof.
  unfold run, Signup.validate. step_handler. now rewrite validate_agrees.
Qed.

(** *** The paths of [handleSignupSubmit] *)

Lemma signup_invalid (c : View) (w : W) :
  draftValid c = false ->
  run (handleSignupSubmit c) c w
  = (Normal tt, mkMachine (setErrors (newErrors c) c) w [(PreventDefault, c)]).
Proof.
  intros H. unfold run, Signup.handleSignupSubmit, Signup.validate.
  step_handler. rewrite validate_agrees, H. reflexivity.
Qed.

Lemma signup_resolved (c : View) (w w' : W) (u : unit) :
  draftValid c = true ->
  signup (email c) (password c) (name c) w = (Normal u, w') ->
  run (handleSignupSubmit c) c w
  = (Normal tt,
     mkMachine (setIsLoading false (setStep verification_step (submitting c))) w'
       [(PreventDefault, c);
        (CallSignup (email c) (password c) (name c), submitting c)]).
Proof.
  intros H E. unfold run, Signup.handleSignupSubmit, Signup.validate.
  step_handler. rewrite validate_agrees, H, (newErrors_valid c H). simpl.
  rewrite E. reflexivity.
Qed.

Lemma signup_exists (c : View) (w w' : W) (err : value) :
  draftValid c = true ->
  signup (email c) (password c) (name c) w = (Throw err, w') ->
  isUsernameExists err = true ->
  run (handleSignupSubmit c) c w
  = (Normal tt,
     mkMachine
       (setIsLoading false
          (match fst (resendCode (email c) w') with
           | Normal _ => setResendStatus (Some codeSentAgain) (recovering c)
           | Throw _ => recovering c
           end))
       (snd (resendCode (email c) w'))
       [(PreventDefault, c);
        (CallSignup (email c) (password c) (name c), submitting c);
        (CallResendCode (email c), recovering c)]).
Proof.
  intros H E X. unfold run, Signup.handleSignupSubmit, Signup.validate.
  step_handler. rewrite validate_agrees, H, (newErrors_valid c H). simpl.
  rewrite E, X. simpl.
  destruct (resendCode (email c) w') as [[u|r] w'']; reflexivity.
Qed.

Lemma signup_failed (c : View) (w w' : W) (err : value) :
  draftValid c = true ->
  signup (email c) (password c) (name c) w = (Throw err, w') ->
  isUsernameExists err = false ->
  run (handleSignupSubmit c) c w
  = (Normal tt,
     mkMachine (setIsLoading false (submitting c)) w'
       [(PreventDefault, c);
        (CallSignup (email c) (password c) (name c), submitting c);
        (HandleApiError err, submitting c)]).
Proof.
  intros H E X. unfold run, Signup.handleSignupSubmit, Signup.validate.
  step_handler. rewrite validate_agrees, H, (newErrors_valid c H). simpl.
  rewrite E, X. reflexivity.
Qed.

(** *** The paths of [handleVerificationSubmit] *)

Lemma verification_missing (c : View) (w : W) :
  verificationCode c = [] ->
  run (handleVerificationSubmit c) c w
  = (Normal tt,
     mkMachine
       (setErrors (withCode (str "Verification code is required") noErrors) c)
       w [(PreventDefault, c)]).
Proof.
  intros H. unfold run, Signup.handleVerificationSubmit. rewrite H.
  reflexivity.
Qed.

Lemma verification_resolved (c : View) (w w' : W) (u : unit) :
  verificationCode c <> [] ->
  verifyCode (email c) (verificationCode c) w = (Normal u, w') ->
  run (handleVerificationSubmit c) c w
  = (Normal tt,
     mkMachine (setIsLoading false (setIsLoading true c)) w'
       [(PreventDefault, c);
        (CallVerifyCode (email c) (verificationCode c), setIsLoading true c);
        (Navigate (str "/login"), setIsLoading true c)]).
Proof.
  intros H E. apply isEmpty_false in H.
  unfold run, Signup.handleVerificationSubmit. rewrite H.
  step_handler. rewrite E. reflexivity.
Qed.

Lemma verification_rejected (c : View) (w w' : W) (err : value) :
  verificationCode c <> [] ->
  verifyCode (email c) (verificationCode c) w = (Throw err, w') ->
  run (handleVerificationSubmit c) c w
  = (Normal tt,
     mkMachine
       (setIsLoading false
          (setErrors (withCode (str "Invalid verification code") noErrors)
                     (setIsLoading true c)))
       w'
       [(PreventDefault, c);
        (CallVerifyCode (email c) (verificationCode c), setIsLoading true c);
        (HandleApiError err, setIsLoading true c)]).
Proof.
  intros H E. apply isEmpty_false in H.
  unfold run, Signup.handleVerificationSubmit. rewrite H.
  step_handler. rewrite E. reflexivity.
Qed.

(** *** [handleResendCode] *)

Lemma resend_run (c : View) (w : W) :
  run (handleResendCode c) c w
  = (Normal tt,
     mkMachine
       (setResendStatus
          (Some (match fst (resendCode (email c) w) with
                 | Normal _ =>
                     mkResendStatus (str "New code sent successfully!") success
                 | Throw _ =>
                     mkResendStatus
                       (str "Cannot send multiple emails in a short time. Please try again later.")
                       error
                 end))
          c)
       (snd (resendCode (email c) w))
       [(CallResendCode (email c), setResendStatus None c)]).
Proof.
  unfold run, Signup.handleResendCode. step_handler.
  destruct (resendCode (email c) w) as [[u|r] w']; reflexivity.
Qed.

End Facts.

End SignupFacts.

(* ===================================================================== *)
(** ** Properties of the recommendation panel *)
(* ===================================================================== *)

Ltac world_answer call E :=
  match goal with
  | H : fst call = _ |- _ =>
      let r := fresh "r" in let w' := fresh "w'" in
      destruct call as [r w'] eqn:E; simpl in H; subst r
  end.

(** C1 (as the code has it): when the [getRecommendations] call of a request
    rejects, the handler still completes normally and the result text is the
    empty string: the handler has emptied it before it issues the call, so
    the call is in flight, and the error is reported, under a view whose
    text is already empty, whatever was displayed before. The only effects
    are the single call followed by the report to the shared error handler:
    nothing is retried. *)
Theorem failed_request_clears_result
  (W : Type)
  (getRecommendations : jsstring -> W -> completion Recommendations.Result * W)
  (c : Recommendations.View) (w : W) (err : value) :
  isEmpty (trim (Recommendations.query c)) = false ->
  fst (getRecommendations (Recommendations.query c) w) = Throw err ->
  let r := run (Recommendations.handleGetRecommendations getRecommendations c) c w in
  outcome r = Normal tt
  /\ Recommendations.recommendationText (final r) = []
  /\ performed (effects r)
     = [CallGetRecommendations (Recommendations.query c); HandleApiError err]
  /\ effects r
     = [(CallGetRecommendations (Recommendations.query c),
         Recommendations.mkView (Recommendations.query c) [] true);
        (HandleApiError err,
         Recommendations.mkView (Recommendations.query c) [] true)]
  /\ final r = Recommendations.mkView (Recommendations.query c) [] false.
Proof.
  intros Hq Hrej.
  world_answer (getRecommendations (Recommendations.query c) w) E.
  cbv zeta. rewrite (RecommendationsFacts.request_rejected _ _ _ Hq E).
  repeat split.
Qed.

Lemma failed_request_clears_result_witness :
  isEmpty (trim (Recommendations.query Sample.answeredPanel)) = false
  /\ fst (Sample.getRecommendations (Recommendations.query Sample.answeredPanel)
                                    Sample.offline)
     = Throw Sample.networkError
  /\ Recommendations.recommendationText Sample.answeredPanel
     = str "Dune, by Frank Herbert"
  /\ effects (run (Recommendations.handleGetRecommendations
                     Sample.getRecommendations Sample.answeredPanel)
                  Sample.answeredPanel Sample.offline)
     = [(CallGetRecommendations (str "space opera"),
         Recommendations.mkView (str "space opera") [] true);
        (HandleApiError Sample.networkError,
         Recommendations.mkView (str "space opera") [] true)]
  /\ Recommendations.recommendationText
       (final (run (Recommendations.handleGetRecommendations
                      Sample.getRecommendations Sample.answeredPanel)
                   Sample.answeredPanel Sample.offline))
     = [].
Proof.
  split; [reflexivity|]. split; [reflexivity|]. split; [reflexivity|].
  pose proof (@failed_request_clears_result
                Sample.World Sample.getRecommendations
                Sample.answeredPanel Sample.offline Sample.networkError
                eq_refl eq_refl) as H.
  cbv zeta in H. destruct H as (_ & Htext & _ & Hcalls & _).
  split; [exact Hcalls|exact Htext].
Defined.

(** C1 as stated fails: the panel shows the answer of an earlier request,
    the backend is unreachable, and after the failed request the text is no
    longer the one that was displayed. *)
Lemma failed_request_loses_previous_result :
  isEmpty (trim (Recommendations.query Sample.answeredPanel)) = false
  /\ fst (Sample.getRecommendations (Recommendations.query Sample.answeredPanel)
                                    Sample.offline)
     = Throw Sample.networkError
  /\ Recommendations.recommendationText
       (final (run (Recommendations.handleGetRecommendations
                      Sample.getRecommendations Sample.answeredPanel)
                   Sample.answeredPanel Sample.offline))
     <> Recommendations.recommendationText Sample.answeredPanel.
Proof.
  split; [reflexivity|]. split; [reflexivity|]. vm_compute. discriminate.
Qed.

(* ===================================================================== *)
(** ** Properties of the signup and verification controller *)
(* ===================================================================== *)

Section SignupProperties.
Import Signup.

Variable W : Type.
Variable signup : jsstring -> jsstring -> jsstring -> W -> completion unit * W.
Variable verifyCode : jsstring -> jsstring -> W -> completion unit * W.
Variable resendCode : jsstring -> W -> completion unit * W.
Variable validateRequired : jsstring -> bool.
Variable validateEmail : jsstring -> bool.
Variable validatePassword : jsstring -> bool.

Abbreviation valid := (draftValid validateRequired validateEmail validatePassword).
Abbreviation submit :=
  (handleSignupSubmit signup resendCode validateRequired validateEmail
                      validatePassword).

(** C2: a locally valid draft whose signup call rejects with an object named
    [UsernameExistsException] ends with the email error "User already
    exists. Please verify your email." as the only field error, in the
    verification step, after exactly one automatic [resendCode] for the
    draft's email; the shared error handler is never called, and the resend
    status is the success notice when the resend resolved and stays null
    when it rejected. Error and step do not depend on the resend. *)
Theorem exists_error_recovers_to_verification
  (c : View) (w : W) (props : list (jsstring * value)) :
  valid c = true ->
  fst (signup (email c) (password c) (name c) w) = Throw (VObject props) ->
  lookup (str "name") props = Some (VString (str "UsernameExistsException")) ->
  let r := run (submit c) c w in
  let resent :=
    fst (resendCode (email c) (snd (signup (email c) (password c) (name c) w))) in
  outcome r = Normal tt
  /\ errors (final r)
     = mkErrors None
         (Some (str "User already exists. Please verify your email."))
         None None None
  /\ err_email (errors (final r))
     = Some (str "User already exists. Please verify your email.")
  /\ step (final r) = verification_step
  /\ performed (effects r)
     = [PreventDefault; CallSignup (email c) (password c) (name c);
        CallResendCode (email c)]
  /\ (forall e, ~ In (HandleApiError e) (performed (effects r)))
  /\ resendStatus (final r)
     = match resent with
       | Normal _ =>
           Some (mkResendStatus
                   (str "A new verification code has been sent to your email.")
                   success)
       | Throw _ => None
       end.
Proof.
  intros Hv Hrej Hname.
  world_answer (signup (email c) (password c) (name c) w) E.
  assert (X : isUsernameExists (VObject props) = true)
    by (apply named_object_discriminated, Hname).
  cbv zeta.
  rewrite (SignupFacts.signup_exists signup resendCode _ _ _ c w Hv E X).
  unfold outcome, final, effects, performed; simpl.
  split; [reflexivity|].
  split; [destruct (fst (resendCode (email c) w')); reflexivity|].
  split; [destruct (fst (resendCode (email c) w')); reflexivity|].
  split; [destruct (fst (resendCode (email c) w')); reflexivity|].
  split; [reflexivity|].
  split; [intros e [H|[H|[H|[]]]]; discriminate|].
  destruct (fst (resendCode (email c) w')); reflexivity.
Qed.


(** C4: a draft that breaks at least one of the four rules gets, in one go,
    a message for every field whose rule it breaks and none for the others,
    and no network call is issued; for the draft with an empty name,
    [a@b.com] and [Abc12345] twice, whenever the helpers accept that address
    and that password, the errors are exactly the name error. *)
Theorem invalid_draft_reports_every_field (c : View) (w : W) :
  valid c = false ->
  let r := run (submit c) c w in
  let e := errors (final r) in
  outcome r = Normal tt
  /\ err_name e
     = (if nameOk validateRequired c then None
        else Some (str "Name is required"))
  /\ err_email e
     = (if emailOk validateRequired validateEmail c then None
        else if validateRequired (email c)
             then Some (str "Invalid email format")
             else Some (str "Email is required"))
  /\ err_password e
     = (if passwordOk validateRequired validatePassword c then None
        else if validateRequired (password c)
             then Some (str "Password must be at least 8 characters with uppercase, lowercase, and number")
             else Some (str "Password is required"))
  /\ err_confirmPassword e
     = (if confirmOk c then None else Some (str "Passwords do not match"))
  /\ err_code e = None
  /\ keys e <> []
  /\ networkCalls (effects r) = []
  /\ (name c = [] -> email c = str "a@b.com" ->
      password c = str "Abc12345" -> confirmPassword c = str "Abc12345" ->
      validateRequired (str "a@b.com") = true ->
      validateEmail (str "a@b.com") = true ->
      validateRequired (str "Abc12345") = true ->
      validatePassword (str "Abc12345") = true ->
      e = withName (str "Name is required") noErrors).
Proof.
  intros Hv. cbv zeta.
  rewrite (SignupFacts.signup_invalid signup resendCode _ _ _ c w Hv).
  unfold outcome, final, effects; simpl.
  split; [reflexivity|].
  split; [apply SignupFacts.newErrors_name|].
  split; [rewrite SignupFacts.newErrors_email; unfold emailOk;
          destruct (validateRequired (email c)), (validateEmail (email c));
          reflexivity|].
  split; [rewrite SignupFacts.newErrors_password; unfold passwordOk;
          destruct (validateRequired (password c)),
            (validatePassword (password c)); reflexivity|].
  split; [apply SignupFacts.newErrors_confirmPassword|].
  split; [apply SignupFacts.newErrors_code|].
  split.
  - intros K. rewrite <- SignupFacts.validate_agrees, K in Hv. discriminate Hv.
  - split; [reflexivity|].
    intros Hn He Hp Hc RE VE RP VP.
    revert Hv. unfold Signup.draftValid, Signup.newErrors, nameOk, emailOk,
      passwordOk, confirmOk.
    rewrite Hn, He, Hp, Hc, RE, VE, RP, VP.
    destruct (validateRequired []); simpl; [discriminate|reflexivity].
Qed.

(** C5: whenever the confirmation differs from the password, [validate]
    rejects the draft and sets the confirmPassword error "Passwords do not
    match", whatever the helpers say about the password or any other field;
    the error is still there when the submit handler has returned. *)
Theorem mismatch_always_reported (c : View) (w : W) :
  password c <> confirmPassword c ->
  let checked :=
    run (@validate W validateRequired validateEmail validatePassword c) c w in
  outcome checked = Normal false
  /\ err_confirmPassword (errors (final checked))
     = Some (str "Passwords do not match")
  /\ err_confirmPassword (errors (final (run (submit c) c w)))
     = Some (str "Passwords do not match").
Proof.
  intros Hne. apply eqb_neq in Hne. cbv zeta.
  assert (Hv : valid c = false).
  { unfold Signup.draftValid, confirmOk. rewrite Hne. apply andb_false_r. }
  rewrite SignupFacts.run_validate, (SignupFacts.signup_invalid signup resendCode _ _ _ c w Hv).
  unfold outcome, final; simpl.
  rewrite Hv, SignupFacts.newErrors_confirmPassword, Hne. repeat split.
Qed.

(** C6: a verification submission with a non-empty code whose [verifyCode]
    call rejects ends with "Invalid verification code" as the code error
    (and the only field error), in the step it started in, without
    navigating away. *)
Theorem rejected_code_stays_in_verification (c : View) (w : W) (err : value) :
  verificationCode c <> [] ->
  fst (verifyCode (email c) (verificationCode c) w) = Throw err ->
  let r := run (handleVerificationSubmit verifyCode c) c w in
  outcome r = Normal tt
  /\ errors (final r)
     = mkErrors None None None None (Some (str "Invalid verification code"))
  /\ err_code (errors (final r)) = Some (str "Invalid verification code")
  /\ step (final r) = step c
  /\ (step c = verification_step -> step (final r) = verification_step)
  /\ (forall path, ~ In (Navigate path) (performed (effects r))).
Proof.
  intros Hc Hrej.
  world_answer (verifyCode (email c) (verificationCode c) w) E.
  cbv zeta. rewrite (SignupFacts.verification_rejected verifyCode c w Hc E).
  unfold outcome, final, effects; simpl. repeat split.
  - tauto.
  - intros path [H|[H|[H|[]]]]; discriminate.
Qed.

(** C7: a resend triggered by the user completes normally after one
    [resendCode] call and always leaves a resend status: the success notice
    when the call resolved, the error-kind rate-limit notice when it
    rejected. *)
Theorem manual_resend_always_reports (c : View) (w : W) :
  let r := run (handleResendCode resendCode c) c w in
  outcome r = Normal tt
  /\ performed (effects r) = [CallResendCode (email c)]
  /\ resendStatus (final r)
     = match fst (resendCode (email c) w) with
       | Normal _ =>
           Some (mkResendStatus (str "New code sent successfully!") success)
       | Throw _ =>
           Some (mkResendStatus
                   (str "Cannot send multiple emails in a short time. Please try again later.")
                   error)
       end.
Proof.
  cbv zeta. rewrite SignupFacts.resend_run.
  unfold outcome, final, effects; simpl. repeat split.
  destruct (fst (resendCode (email c) w)); reflexivity.
Qed.

(** C9: when the [verifyCode] call rejects, with whatever value, the handler
    hands that very value to the shared error handler and then sets the
    code error "Invalid verification code"; the value is never inspected. *)
Theorem verification_failure_not_discriminated
  (c : View) (w : W) (err : value) :
  verificationCode c <> [] ->
  fst (verifyCode (email c) (verificationCode c) w) = Throw err ->
  let r := run (handleVerificationSubmit verifyCode c) c w in
  performed (effects r)
  = [PreventDefault; CallVerifyCode (email c) (verificationCode c);
     HandleApiError err]
  /\ err_code (errors (final r)) = Some (str "Invalid verification code").
Proof.
  intros Hc Hrej.
  world_answer (verifyCode (email c) (verificationCode c) w) E.
  cbv zeta. rewrite (SignupFacts.verification_rejected verifyCode c w Hc E).
  split; reflexivity.
Qed.

(** C10: the presence check of the verification step looks at the code as
    typed: for every non-empty code, also one that trims to nothing, the
    check passes and the [verifyCode] call is issued, once, with the
    untrimmed code. *)
Theorem presence_check_does_not_trim (c : View) (w : W) :
  verificationCode c <> [] ->
  let r := run (handleVerificationSubmit verifyCode c) c w in
  networkCalls (effects r) = [CallVerifyCode (email c) (verificationCode c)].
Proof.
  intros Hc. cbv zeta.
  destruct (verifyCode (email c) (verificationCode c) w) as [[u|err] w'] eqn:E.
  - rewrite (SignupFacts.verification_resolved verifyCode c w Hc E).
    reflexivity.
  - rewrite (SignupFacts.verification_rejected verifyCode c w Hc E).
    reflexivity.
Qed.

End SignupProperties.

(** C8: each guarded operation, once past its local check, completes
    normally whatever the network answers; every network call it issues,
    and there is at least one, is issued under a view whose loading flag is
    set, and the flag is clear in the final view. *)
Theorem loading_flag_released_on_every_path
  (W : Type)
  (signup : jsstring -> jsstring -> jsstring -> W -> completion unit * W)
  (verifyCode : jsstring -> jsstring -> W -> completion unit * W)
  (resendCode : jsstring -> W -> completion unit * W)
  (getRecommendations : jsstring -> W -> completion Recommendations.Result * W)
  (validateRequired validateEmail validatePassword : jsstring -> bool)
  (cs cv : Signup.View) (cr : Recommendations.View) (w : W) :
  Signup.draftValid validateRequired validateEmail validatePassword cs = true ->
  Signup.verificationCode cv <> [] ->
  isEmpty (trim (Recommendations.query cr)) = false ->
  let rs := run (Signup.handleSignupSubmit signup resendCode validateRequired
                   validateEmail validatePassword cs) cs w in
  let rv := run (Signup.handleVerificationSubmit verifyCode cv) cv w in
  let rr := run (Recommendations.handleGetRecommendations getRecommendations cr)
                cr w in
  (outcome rs = Normal tt
   /\ networkCalls (effects rs) <> []
   /\ duringCalls Signup.isLoading (effects rs)
   /\ Signup.isLoading (final rs) = false)
  /\ (outcome rv = Normal tt
      /\ networkCalls (effects rv) <> []
      /\ duringCalls Signup.isLoading (effects rv)
      /\ Signup.isLoading (final rv) = false)
  /\ (outcome rr = Normal tt
      /\ networkCalls (effects rr) <> []
      /\ duringCalls Recommendations.isLoading (effects rr)
      /\ Recommendations.isLoading (final rr) = false).
Proof.
  intros Hs Hv Hr. cbv zeta.
  split; [|split].
  - destruct (signup (Signup.email cs) (Signup.password cs) (Signup.name cs) w)
      as [[u|err] w'] eqn:E; [|destruct (Signup.isUsernameExists err) eqn:X].
    + rewrite (SignupFacts.signup_resolved signup resendCode _ _ _ cs w Hs E).
      unfold outcome, final, effects; simpl.
      split; [reflexivity|split; [discriminate|split; [settle_calls|reflexivity]]].
    + rewrite (SignupFacts.signup_exists signup resendCode _ _ _ cs w Hs E X).
      unfold outcome, final, effects; simpl.
      split; [reflexivity|split; [discriminate|split; [settle_calls|]]].
      destruct (fst (resendCode (Signup.email cs) w')); reflexivity.
    + rewrite (SignupFacts.signup_failed signup resendCode _ _ _ cs w Hs E X).
      unfold outcome, final, effects; simpl.
      split; [reflexivity|split; [discriminate|split; [settle_calls|reflexivity]]].
  - destruct (verifyCode (Signup.email cv) (Signup.verificationCode cv) w)
      as [[u|err] w'] eqn:E.
    + rewrite (SignupFacts.verification_resolved verifyCode cv w Hv E).
      unfold outcome, final, effects; simpl.
      split; [reflexivity|split; [discriminate|split; [settle_calls|reflexivity]]].
    + rewrite (SignupFacts.verification_rejected verifyCode cv w Hv E).
      unfold outcome, final, effects; simpl.
      split; [reflexivity|split; [discriminate|split; [settle_calls|reflexivity]]].
  - destruct (getRecommendations (Recommendations.query cr) w)
      as [[res|err] w'] eqn:E.
    + rewrite (RecommendationsFacts.request_resolved _ _ _ Hr E).
      unfold outcome, final, effects; simpl.
      split; [reflexivity|split; [discriminate|split; [settle_calls|reflexivity]]].
    + rewrite (RecommendationsFacts.request_rejected _ _ _ Hr E).
      unfold outcome, final, effects; simpl.
      split; [reflexivity|split; [discriminate|split; [settle_calls|reflexivity]]].
Qed.

(* ===================================================================== *)
(** ** The properties on the sample world *)
(* ===================================================================== *)

(** A second signup for a registered address while the provider limits the
    resend: verification step, email error, no resend status. *)
Lemma exists_error_recovers_to_verification_witness :
  sampleValid Sample.goodDraft = true
  /\ fst (Sample.signup (str "a@b.com") (str "Abc12345") (str "Ada")
                        Sample.registeredLimited)
     = Throw Sample.usernameExists
  /\ fst (Sample.resendCode (str "a@b.com") Sample.registeredLimited)
     = Throw Sample.limitExceeded
  /\ Signup.err_email
       (Signup.errors
          (final (run (sampleSubmit Sample.goodDraft) Sample.goodDraft
                      Sample.registeredLimited)))
     = Some (str "User already exists. Please verify your email.")
  /\ Signup.step (final (run (sampleSubmit Sample.goodDraft) Sample.goodDraft
                             Sample.registeredLimited))
     = Signup.verification_step
  /\ Signup.resendStatus
       (final (run (sampleSubmit Sample.goodDraft) Sample.goodDraft
                   Sample.registeredLimited))
     = None.
Proof.
  split; [reflexivity|]. split; [reflexivity|]. split; [reflexivity|].
  pose proof (@exists_error_recovers_to_verification
                Sample.World Sample.signup Sample.resendCode
                Validation.validateRequired Validation.validateEmail
                Validation.validatePassword
                Sample.goodDraft Sample.registeredLimited
                [(str "name", VString (str "UsernameExistsException"));
                 (str "message", VString (str "User already exists"))]
                eq_refl eq_refl eq_refl) as H.
  cbv zeta in H. destruct H as (_ & _ & Hemail & Hstep & _ & _ & Hstatus).
  split; [exact Hemail|]. split; [exact Hstep|exact Hstatus].
Defined.

(** The handler on its own, started on a view the page never shows (a
    signup form that holds a notification, see
    [signup_submission_clears_resend_status]): the draft does not pass
    validation, and the notification is still there when the handler has
    returned. The call [setResendStatus(null)] itself is behind
    validation. *)
Lemma invalid_submission_keeps_resend_status :
  sampleValid Sample.notifiedDraft = false
  /\ Signup.resendStatus
       (final (run (sampleSubmit Sample.notifiedDraft) Sample.notifiedDraft
                   Sample.fresh))
     <> None.
Proof.
  split; [reflexivity|]. vm_compute. discriminate.
Qed.

(** The example of the specification, with helpers that follow its rules. *)
Lemma invalid_draft_reports_every_field_witness :
  sampleValid Sample.namelessDraft = false
  /\ Signup.errors
       (final (run (sampleSubmit Sample.namelessDraft) Sample.namelessDraft
                   Sample.fresh))
     = Signup.withName (str "Name is required") Signup.noErrors
  /\ networkCalls
       (effects (run (sampleSubmit Sample.namelessDraft) Sample.namelessDraft
                     Sample.fresh))
     = [].
Proof.
  split; [reflexivity|].
  pose proof (@invalid_draft_reports_every_field
                Sample.World Sample.signup Sample.resendCode
                Validation.validateRequired Validation.validateEmail
                Validation.validatePassword
                Sample.namelessDraft Sample.fresh eq_refl) as H.
  cbv zeta in H.
  destruct H as (_ & _ & _ & _ & _ & _ & _ & Hcalls & Hexample).
  split; [|exact Hcalls].
  apply Hexample; reflexivity.
Defined.

(** A password within the policy and a confirmation that differs from it. *)
Lemma mismatch_always_reported_witness :
  Signup.password Sample.mismatchedDraft
  <> Signup.confirmPassword Sample.mismatchedDraft
  /\ Validation.validatePassword (Signup.password Sample.mismatchedDraft) = true
  /\ Signup.err_confirmPassword
       (Signup.errors
          (final (run (sampleSubmit Sample.mismatchedDraft)
                      Sample.mismatchedDraft Sample.fresh)))
     = Some (str "Passwords do not match").
Proof.
  assert (Hne : Signup.password Sample.mismatchedDraft
                <> Signup.confirmPassword Sample.mismatchedDraft)
    by (vm_compute; discriminate).
  split; [exact Hne|]. split; [reflexivity|].
  pose proof (@mismatch_always_reported
                Sample.World Sample.signup Sample.resendCode
                Validation.validateRequired Validation.validateEmail
                Validation.validatePassword
                Sample.mismatchedDraft Sample.fresh Hne) as H.
  cbv zeta in H. exact (proj2 (proj2 H)).
Defined.

(** A wrong code typed into the verification form. *)
Lemma rejected_code_stays_in_verification_witness :
  Signup.verificationCode (Sample.verifying (str "000000")) <> []
  /\ fst (Sample.verifyCode (str "a@b.com") (str "000000") Sample.registered)
     = Throw Sample.codeMismatch
  /\ Signup.err_code
       (Signup.errors
          (final (run (sampleVerify (Sample.verifying (str "000000")))
                      (Sample.verifying (str "000000")) Sample.registered)))
     = Some (str "Invalid verification code")
  /\ Signup.step
       (final (run (sampleVerify (Sample.verifying (str "000000")))
                   (Sample.verifying (str "000000")) Sample.registered))
     = Signup.verification_step.
Proof.
  assert (Hc : Signup.verificationCode (Sample.verifying (str "000000")) <> [])
    by (vm_compute; discriminate).
  split; [exact Hc|]. split; [reflexivity|].
  pose proof (@rejected_code_stays_in_verification
                Sample.World Sample.verifyCode
                (Sample.verifying (str "000000")) Sample.registered
                Sample.codeMismatch Hc eq_refl) as H.
  cbv zeta in H. destruct H as (_ & _ & Hcode & _ & Hstep & _).
  split; [exact Hcode|]. apply Hstep. reflexivity.
Defined.

(** The right code typed in while the provider cannot be reached: the
    network error is reported as an invalid code. *)
Lemma verification_failure_not_discriminated_witness :
  Signup.verificationCode (Sample.verifying (str "123456")) <> []
  /\ fst (Sample.verifyCode (str "a@b.com") (str "123456") Sample.offline)
     = Throw Sample.networkError
  /\ Signup.err_code
       (Signup.errors
          (final (run (sampleVerify (Sample.verifying (str "123456")))
                      (Sample.verifying (str "123456")) Sample.offline)))
     = Some (str "Invalid verification code").
Proof.
  assert (Hc : Signup.verificationCode (Sample.verifying (str "123456")) <> [])
    by (vm_compute; discriminate).
  split; [exact Hc|]. split; [reflexivity|].
  pose proof (@verification_failure_not_discriminated
                Sample.World Sample.verifyCode
                (Sample.verifying (str "123456")) Sample.offline
                Sample.networkError Hc eq_refl) as H.
  cbv zeta in H. exact (proj2 H).
Defined.

(** Three spaces typed as the code: nothing is left after trimming, and the
    call is issued all the same. *)
Lemma presence_check_does_not_trim_witness :
  Signup.verificationCode (Sample.verifying (str "   ")) <> []
  /\ trim (Signup.verificationCode (Sample.verifying (str "   "))) = []
  /\ networkCalls
       (effects (run (sampleVerify (Sample.verifying (str "   ")))
                     (Sample.verifying (str "   ")) Sample.registered))
     = [CallVerifyCode (str "a@b.com") (str "   ")].
Proof.
  assert (Hc : Signup.verificationCode (Sample.verifying (str "   ")) <> [])
    by (vm_compute; discriminate).
  split; [exact Hc|]. split; [reflexivity|].
  exact (@presence_check_does_not_trim
           Sample.World Sample.verifyCode
           (Sample.verifying (str "   ")) Sample.registered Hc).
Defined.

(** The three operations against a provider that cannot be reached. *)
Lemma loading_flag_released_on_every_path_witness :
  sampleValid Sample.goodDraft = true
  /\ Signup.verificationCode (Sample.verifying (str "123456")) <> []
  /\ isEmpty (trim (Recommendations.query Sample.answeredPanel)) = false
  /\ Signup.isLoading
       (final (run (sampleSubmit Sample.goodDraft) Sample.goodDraft
                   Sample.offline)) = false
  /\ Signup.isLoading
       (final (run (sampleVerify (Sample.verifying (str "123456")))
                   (Sample.verifying (str "123456")) Sample.offline)) = false
  /\ Recommendations.isLoading
       (final (run (Recommendations.handleGetRecommendations
                      Sample.getRecommendations Sample.answeredPanel)
                   Sample.answeredPanel Sample.offline)) = false.
Proof.
  assert (Hc : Signup.verificationCode (Sample.verifying (str "123456")) <> [])
    by (vm_compute; discriminate).
  split; [reflexivity|]. split; [exact Hc|]. split; [reflexivity|].
  pose proof (@loading_flag_released_on_every_path
                Sample.World Sample.signup Sample.verifyCode Sample.resendCode
                Sample.getRecommendations
                Validation.validateRequired Validation.validateEmail
                Validation.validatePassword
                Sample.goodDraft (Sample.verifying (str "123456"))
                Sample.answeredPanel Sample.offline
                eq_refl Hc eq_refl) as H.
  cbv zeta in H.
  destruct H as ((_ & _ & _ & Hs) & (_ & _ & _ & Hv) & (_ & _ & _ & Hr)).
  split; [exact Hs|]. split; [exact Hv|exact Hr].
Defined.

(* ===================================================================== *)
(** ** Further properties: white space *)
(* ===================================================================== *)

Lemma trimStart_blank (s : jsstring) :
  isEmpty (trimStart s) = forallb isWhiteSpace s.
Proof.
  induction s as [|c s IH]; simpl; [reflexivity|].
  destruct (isWhiteSpace c); [exact IH|reflexivity].
Qed.

Lemma trimStart_keeps_blankness (s : jsstring) :
  forallb isWhiteSpace (trimStart s) = forallb isWhiteSpace s.
Proof.
  induction s as [|c s IH]; simpl; [reflexivity|].
  destruct (isWhiteSpace c) eqn:E; [exact IH|].
  simpl. now rewrite E.
Qed.

Lemma forallb_rev_same (f : N -> bool) (s : jsstring) :
  forallb f (rev s) = forallb f s.
Proof.
  induction s as [|c s IH]; simpl; [reflexivity|].
  rewrite forallb_app, IH. simpl. rewrite andb_true_r. apply andb_comm.
Qed.

Lemma isEmpty_rev (s : jsstring) : isEmpty (rev s) = isEmpty s.
Proof.
  destruct s as [|c s]; simpl; [reflexivity|].
  destruct (rev s); reflexivity.
Qed.

(** [!s.trim()] holds exactly when [s] is made of white space only. *)
Lemma trim_blank (s : jsstring) : isEmpty (trim s) = forallb isWhiteSpace s.
Proof.
  unfold trim, trimEnd.
  now rewrite isEmpty_rev, trimStart_blank, forallb_rev_same,
    trimStart_keeps_blankness.
Qed.

(* ===================================================================== *)
(** ** Further properties of the recommendation panel *)
(* ===================================================================== *)

Section PanelCoverage.
Import Recommendations RecommendationsPage.

Variable W : Type.
Variable getRecommendations : jsstring -> W -> completion Result * W.

Abbreviation request := (handleGetRecommendations getRecommendations).

(** X1: a query made of white space only (the empty query included) is
    refused on the spot: the user is alerted with "Please enter a query",
    nothing goes to the network, and the view is left exactly as it was, so
    an earlier result stays on display. *)
Theorem blank_query_is_refused_locally (c : View) (w : W) :
  forallb isWhiteSpace (query c) = true ->
  let r := run (request c) c w in
  outcome r = Normal tt
  /\ performed (effects r) = [Alert (str "Please enter a query")]
  /\ final r = c
  /\ world (snd r) = w
  /\ render (final r) = render c.
Proof.
  intros Hb. cbv zeta. rewrite <- trim_blank in Hb.
  rewrite (RecommendationsFacts.blank_query_alerts getRecommendations c w Hb).
  repeat split.
Qed.

(** X2: a query with at least one character that is not white space is sent
    as typed, untrimmed, in a single call; when the call resolves, the text
    of the answer becomes the result text, the error handler is not called,
    the loading flag is clear and the query is kept. *)
Theorem resolved_request_shows_answer (c : View) (w : W) (res : Result) :
  forallb isWhiteSpace (query c) = false ->
  fst (getRecommendations (query c) w) = Normal res ->
  let r := run (request c) c w in
  outcome r = Normal tt
  /\ performed (effects r) = [CallGetRecommendations (query c)]
  /\ final r = mkView (query c) (recommendations res) false.
Proof.
  intros Hb Hres. cbv zeta. rewrite <- trim_blank in Hb.
  world_answer (getRecommendations (query c) w) E.
  rewrite (RecommendationsFacts.request_resolved getRecommendations c w Hb E).
  repeat split.
Qed.

(** X3: while the call of a request is in flight, whatever the panel showed
    before, it shows the busy indicator, the button is disabled and reads
    "Getting Recommendations...", and no result block is on display. *)
Theorem request_in_flight_shows_spinner (c : View) (w : W) :
  forallb isWhiteSpace (query c) = false ->
  let r := run (request c) c w in
  exists v,
    In (CallGetRecommendations (query c), v) (effects r)
    /\ spinnersShown v = [Spinner]
    /\ resultsShown v = []
    /\ In (GetButton true (str "Getting Recommendations...")) (render v).
Proof.
  intros Hb. cbv zeta. rewrite <- trim_blank in Hb.
  exists (mkView (query c) [] true). split.
  - destruct (getRecommendations (query c) w) as [[res|err] w'] eqn:E.
    + rewrite (RecommendationsFacts.request_resolved getRecommendations c w Hb E).
      left. reflexivity.
    + rewrite (RecommendationsFacts.request_rejected getRecommendations c w Hb E).
      left. reflexivity.
  - split; [reflexivity|]. split; [reflexivity|].
    unfold render. simpl. do 7 right. left. reflexivity.
Qed.

(** X4: once a request for a non-blank query has completed, the busy
    indicator is gone and the button is enabled again; a result block is on
    display exactly when the call resolved with a non-empty text, and then
    it shows that text. A call that resolves with the empty text leaves the
    panel as a failed call does. *)
Theorem result_block_iff_answered (c : View) (w : W) :
  forallb isWhiteSpace (query c) = false ->
  let r := run (request c) c w in
  spinnersShown (final r) = []
  /\ In (GetButton false (str "Get Recommendations")) (render (final r))
  /\ resultsShown (final r)
     = match fst (getRecommendations (query c) w) with
       | Normal res =>
           if isEmpty (recommendations res) then []
           else [ResultBlock (str "AI Recommendation") (recommendations res)]
       | Throw _ => []
       end.
Proof.
  intros Hb. cbv zeta. rewrite <- trim_blank in Hb.
  destruct (getRecommendations (query c) w) as [[res|err] w'] eqn:E.
  - rewrite (RecommendationsFacts.request_resolved getRecommendations c w Hb E).
    unfold final, spinnersShown, resultsShown, render; simpl.
    split; [destruct (isEmpty (recommendations res)); reflexivity|].
    split; [do 7 right; left; reflexivity|].
    destruct (isEmpty (recommendations res)); reflexivity.
  - rewrite (RecommendationsFacts.request_rejected getRecommendations c w Hb E).
    unfold final, spinnersShown, resultsShown, render; simpl.
    split; [reflexivity|]. split; [do 7 right; left; reflexivity|reflexivity].
Qed.

End PanelCoverage.

(* ===================================================================== *)
(** ** Further properties of the signup and verification controller *)
(* ===================================================================== *)

(** The test of the [catch] clause accepts objects with the expected name
    and nothing else. *)
Lemma isUsernameExists_spec (err : value) :
  Signup.isUsernameExists err = true
  <-> exists props,
        err = VObject props
        /\ lookup (str "name") props
           = Some (VString (str "UsernameExistsException")).
Proof.
  split.
  - destruct err as [| |b|n|s| |props]; try discriminate.
    unfold Signup.isUsernameExists, hasProperty, getProperty.
    destruct (lookup (str "name") props) as [x|] eqn:L; [|discriminate].
    destruct x as [| |b|n|s| |ps]; try discriminate.
    cbn [typeof isNull negb andb strictEqualsString].
    intros H. apply andb_true_iff in H as [_ H]. apply eqb_eq in H.
    exists props. now subst.
  - intros (props & -> & L). now apply named_object_discriminated.
Qed.

Module SignupPaths.
Import Signup.

Section Paths.
Variable W : Type.
Variable signup : jsstring -> jsstring -> jsstring -> W -> completion unit * W.
Variable verifyCode : jsstring -> jsstring -> W -> completion unit * W.
Variable resendCode : jsstring -> W -> completion unit * W.
Variable validateRequired : jsstring -> bool.
Variable validateEmail : jsstring -> bool.
Variable validatePassword : jsstring -> bool.

Abbreviation newErrors := (newErrors validateRequired validateEmail validatePassword).
Abbreviation draftValid := (draftValid validateRequired validateEmail validatePassword).
Abbreviation submit :=
  (handleSignupSubmit signup resendCode validateRequired validateEmail
                      validatePassword).
Abbreviation verify := (handleVerificationSubmit verifyCode).
Abbreviation resend := (handleResendCode resendCode).

(** Every run of [handleSignupSubmit] follows one of five paths. *)
Lemma submit_cases (c : View) (w : W)
      (P : completion unit * Machine View W -> Prop) :
  (draftValid c = false ->
   P (Normal tt, mkMachine (setErrors (newErrors c) c) w [(PreventDefault, c)])) ->
  (forall u w',
      draftValid c = true ->
      signup (email c) (password c) (name c) w = (Normal u, w') ->
      P (Normal tt,
         mkMachine (setIsLoading false (setStep verification_step (submitting c)))
           w'
           [(PreventDefault, c);
            (CallSignup (email c) (password c) (name c), submitting c)])) ->
  (forall err w' u w'',
      draftValid c = true ->
      signup (email c) (password c) (name c) w = (Throw err, w') ->
      isUsernameExists err = true ->
      resendCode (email c) w' = (Normal u, w'') ->
      P (Normal tt,
         mkMachine
           (setIsLoading false
              (setResendStatus (Some codeSentAgain) (recovering c)))
           w''
           [(PreventDefault, c);
            (CallSignup (email c) (password c) (name c), submitting c);
            (CallResendCode (email c), recovering c)])) ->
  (forall err w' err' w'',
      draftValid c = true ->
      signup (email c) (password c) (name c) w = (Throw err, w') ->
      isUsernameExists err = true ->
      resendCode (email c) w' = (Throw err', w'') ->
      P (Normal tt,
         mkMachine (setIsLoading false (recovering c)) w''
           [(PreventDefault, c);
            (CallSignup (email c) (password c) (name c), submitting c);
            (CallResendCode (email c), recovering c)])) ->
  (forall err w',
      draftValid c = true ->
      signup (email c) (password c) (name c) w = (Throw err, w') ->
      isUsernameExists err = false ->
      P (Normal tt,
         mkMachine (setIsLoading false (submitting c)) w'
           [(PreventDefault, c);
            (CallSignup (email c) (password c) (name c), submitting c);
            (HandleApiError err, submitting c)])) ->
  P (run (submit c) c w).
Proof.
  intros Hinvalid Hresolved Hresent Hsilent Hfailed.
  destruct (draftValid c) eqn:Hv.
  - destruct (signup (email c) (password c) (name c) w) as [[u|err] w'] eqn:E.
    + rewrite (SignupFacts.signup_resolved signup resendCode _ _ _ c w Hv E).
      now apply Hresolved with u.
    + destruct (isUsernameExists err) eqn:X.
      * rewrite (SignupFacts.signup_exists signup resendCode _ _ _ c w Hv E X).
        destruct (resendCode (email c) w') as [[u|err'] w''] eqn:R; simpl.
        -- now apply Hresent with err w' u.
        -- now apply Hsilent with err w' err'.
      * rewrite (SignupFacts.signup_failed signup resendCode _ _ _ c w Hv E X).
        now apply Hfailed.
  - rewrite (SignupFacts.signup_invalid signup resendCode _ _ _ c w Hv).
    now apply Hinvalid.
Qed.

(** Every run of [handleVerificationSubmit] follows one of three paths. *)
Lemma verify_cases (c : View) (w : W)
      (P : completion unit * Machine View W -> Prop) :
  (verificationCode c = [] ->
   P (Normal tt,
      mkMachine
        (setErrors (withCode (str "Verification code is required") noErrors) c)
        w [(PreventDefault, c)])) ->
  (forall u w',
      verificationCode c <> [] ->
      verifyCode (email c) (verificationCode c) w = (Normal u, w') ->
      P (Normal tt,
         mkMachine (setIsLoading false (setIsLoading true c)) w'
           [(PreventDefault, c);
            (CallVerifyCode (email c) (verificationCode c), setIsLoading true c);
            (Navigate (str "/login"), setIsLoading true c)])) ->
  (forall err w',
      verificationCode c <> [] ->
      verifyCode (email c) (verificationCode c) w = (Throw err, w') ->
      P (Normal tt,
         mkMachine
           (setIsLoading false
              (setErrors (withCode (str "Invalid verification code") noErrors)
                         (setIsLoading true c)))
           w'
           [(PreventDefault, c);
            (CallVerifyCode (email c) (verificationCode c), setIsLoading true c);
            (HandleApiError err, setIsLoading true c)])) ->
  P (run (verify c) c w).
Proof.
  intros Hmissing Hresolved Hrejected.
  destruct (verificationCode c) as [|d code] eqn:C.
  - rewrite (SignupFacts.verification_missing verifyCode c w C).
    now apply Hmissing.
  - assert (Hc : verificationCode c <> []) by (rewrite C; discriminate).
    rewrite <- C in *.
    destruct (verifyCode (email c) (verificationCode c) w) as [[u|err] w'] eqn:E.
    + rewrite (SignupFacts.verification_resolved verifyCode c w Hc E).
      now apply Hresolved with u.
    + rewrite (SignupFacts.verification_rejected verifyCode c w Hc E).
      now apply Hrejected.
Qed.

(** Every run of [handleResendCode] follows one of two paths. *)
Lemma resend_cases (c : View) (w : W)
      (P : completion unit * Machine View W -> Prop) :
  (forall u w',
      resendCode (email c) w = (Normal u, w') ->
      P (Normal tt,
         mkMachine
           (setResendStatus
              (Some (mkResendStatus (str "New code sent successfully!") success))
              c)
           w' [(CallResendCode (email c), setResendStatus None c)])) ->
  (forall err w',
      resendCode (email c) w = (Throw err, w') ->
      P (Normal tt,
         mkMachine
           (setResendStatus
              (Some (mkResendStatus
                       (str "Cannot send multiple emails in a short time. Please try again later.")
                       error))
              c)
           w' [(CallResendCode (email c), setResendStatus None c)])) ->
  P (run (resend c) c w).
Proof.
  intros Hsent Hlimited. rewrite SignupFacts.resend_run.
  destruct (resendCode (email c) w) as [[u|err] w'] eqn:E; simpl.
  - now apply Hsent with u.
  - now apply Hlimited with err.
Qed.

End Paths.

End SignupPaths.

(** Whatever the step, one form is on display, and its submit button is
    disabled exactly when the loading flag is set. *)
Lemma submitsShown_flag (v : Signup.View) :
  SignupPage.submitsShown v = [Signup.isLoading v].
Proof.
  unfold SignupPage.submitsShown, SignupPage.controlsShown, SignupPage.render.
  destruct (Signup.step v); simpl; [reflexivity|].
  destruct (Signup.resendStatus v); reflexivity.
Qed.

Section SignupCoverage.
Import Signup SignupPage.

Variable W : Type.
Variable signup : jsstring -> jsstring -> jsstring -> W -> completion unit * W.
Variable verifyCode : jsstring -> jsstring -> W -> completion unit * W.
Variable resendCode : jsstring -> W -> completion unit * W.
Variable validateRequired : jsstring -> bool.
Variable validateEmail : jsstring -> bool.
Variable validatePassword : jsstring -> bool.

Abbreviation valid' := (draftValid validateRequired validateEmail validatePassword).
Abbreviation submit' :=
  (handleSignupSubmit signup resendCode validateRequired validateEmail
                      validatePassword).
Abbreviation verify' := (handleVerificationSubmit verifyCode).
Abbreviation resend' := (handleResendCode resendCode).
Abbreviation handler' :=
  (handlerOf signup verifyCode resendCode validateRequired validateEmail
             validatePassword).
Abbreviation dispatch' :=
  (dispatch signup verifyCode resendCode validateRequired validateEmail
            validatePassword).
Abbreviation reachable' :=
  (reachable signup verifyCode resendCode validateRequired validateEmail
             validatePassword).
Abbreviation play' :=
  (play signup verifyCode resendCode validateRequired validateEmail
        validatePassword).

Ltac by_submit_paths c w :=
  apply (SignupPaths.submit_cases signup resendCode validateRequired
           validateEmail validatePassword c w).
Ltac by_verify_paths c w := apply (SignupPaths.verify_cases verifyCode c w).
Ltac by_resend_paths c w := apply (SignupPaths.resend_cases resendCode c w).

(** X5: a valid draft whose signup call resolves: the call carries the
    email, the password and the name of the draft, in this order, and is the
    only one; the page moves to the verification step with no field error,
    no resend status and the loading flag clear. *)
Theorem accepted_signup_moves_to_verification (c : View) (w : W) :
  valid' c = true ->
  fst (signup (email c) (password c) (name c) w) = Normal tt ->
  let r := run (submit' c) c w in
  outcome r = Normal tt
  /\ performed (effects r)
     = [PreventDefault; CallSignup (email c) (password c) (name c)]
  /\ step (final r) = verification_step
  /\ errors (final r) = noErrors
  /\ resendStatus (final r) = None
  /\ isLoading (final r) = false.
Proof.
  intros Hv Hres.
  world_answer (signup (email c) (password c) (name c) w) E.
  cbv zeta.
  rewrite (SignupFacts.signup_resolved signup resendCode _ _ _ c w Hv E).
  repeat split.
Qed.

(** X6: a valid draft whose signup call rejects: the rejection reaches the
    shared error handler exactly when it is not an object whose [name] is the
    string [UsernameExistsException] (so [null], a thrown string, an object
    without a name or with another name all go there); it is then handed
    over unchanged, no resend is attempted, and the page stays in its step
    with no field error, no resend status and the loading flag clear. *)
Theorem other_signup_errors_are_forwarded (c : View) (w : W) (err : value) :
  valid' c = true ->
  fst (signup (email c) (password c) (name c) w) = Throw err ->
  let r := run (submit' c) c w in
  let recoverable :=
    exists props,
      err = VObject props
      /\ lookup (str "name") props
         = Some (VString (str "UsernameExistsException")) in
  (In (HandleApiError err) (performed (effects r)) <-> ~ recoverable)
  /\ (~ recoverable ->
      performed (effects r)
      = [PreventDefault; CallSignup (email c) (password c) (name c);
         HandleApiError err]
      /\ step (final r) = step c
      /\ errors (final r) = noErrors
      /\ resendStatus (final r) = None
      /\ isLoading (final r) = false).
Proof.
  intros Hv Hrej.
  world_answer (signup (email c) (password c) (name c) w) E.
  cbv zeta. destruct (isUsernameExists err) eqn:X.
  - assert (R := proj1 (isUsernameExists_spec err) X).
    rewrite (SignupFacts.signup_exists signup resendCode _ _ _ c w Hv E X).
    unfold effects, performed; simpl. split.
    + split; [|intros N; now destruct N].
      intros [H|[H|[H|[]]]]; discriminate.
    + intros N. now destruct N.
  - assert (N : ~ exists props,
                 err = VObject props
                 /\ lookup (str "name") props
                    = Some (VString (str "UsernameExistsException"))).
    { intros R. apply isUsernameExists_spec in R. congruence. }
    rewrite (SignupFacts.signup_failed signup resendCode _ _ _ c w Hv E X).
    unfold effects, performed, final; simpl. split.
    + split; [intros _; exact N|]. intros _. right. right. now left.
    + intros _. repeat split.
Qed.

(** X7: a non-empty code whose [verifyCode] call resolves: the call carries
    the email of the view and the code as typed, the page navigates to
    [/login] once, after the call, and the error handler is not involved;
    field errors, step and resend status are left as they were and the
    loading flag is clear. *)
Theorem accepted_code_navigates_to_login (c : View) (w : W) :
  verificationCode c <> [] ->
  fst (verifyCode (email c) (verificationCode c) w) = Normal tt ->
  let r := run (verify' c) c w in
  outcome r = Normal tt
  /\ performed (effects r)
     = [PreventDefault; CallVerifyCode (email c) (verificationCode c);
        Navigate (str "/login")]
  /\ errors (final r) = errors c
  /\ step (final r) = step c
  /\ resendStatus (final r) = resendStatus c
  /\ isLoading (final r) = false.
Proof.
  intros Hc Hres.
  world_answer (verifyCode (email c) (verificationCode c) w) E.
  cbv zeta. rewrite (SignupFacts.verification_resolved verifyCode c w Hc E).
  repeat split.
Qed.

(** X8: submitting the verification form with an empty code goes nowhere:
    no network call, no navigation, the world untouched; the field errors
    become exactly the code error "Verification code is required", whatever
    errors were held before, and nothing else of the view changes, the
    loading flag included. *)
Theorem missing_code_is_refused_locally (c : View) (w : W) :
  verificationCode c = [] ->
  let r := run (verify' c) c w in
  outcome r = Normal tt
  /\ performed (effects r) = [PreventDefault]
  /\ world (snd r) = w
  /\ final r
     = setErrors (withCode (str "Verification code is required") noErrors) c
  /\ isLoading (final r) = isLoading c.
Proof.
  intros Hc. cbv zeta.
  rewrite (SignupFacts.verification_missing verifyCode c w Hc).
  repeat split.
Qed.

(** X9: no handler of the page ever writes to what the user typed: on every
    path of the three handlers, the name, email, password, confirmation and
    code are, at each effect and at the end, the ones of the render the
    handler was created in. *)
Theorem handlers_keep_the_draft (h : Handler) (c : View) (w : W) :
  let r := run (handler' h c) c w in
  draftOf (final r) = draftOf c
  /\ (forall e v, In (e, v) (effects r) -> draftOf v = draftOf c).
Proof.
  cbv zeta. destruct h; unfold handlerOf.
  - by_submit_paths c w; intros; unfold final, effects; simpl;
      (split; [reflexivity|]);
      intros e v Hin; simpl in Hin;
      repeat (destruct Hin as [Hin|Hin]; [inversion Hin; reflexivity|]);
      contradiction.
  - by_verify_paths c w; intros; unfold final, effects; simpl;
      (split; [reflexivity|]);
      intros e v Hin; simpl in Hin;
      repeat (destruct Hin as [Hin|Hin]; [inversion Hin; reflexivity|]);
      contradiction.
  - by_resend_paths c w; intros; unfold final, effects; simpl;
      (split; [reflexivity|]);
      intros e v Hin; simpl in Hin;
      repeat (destruct Hin as [Hin|Hin]; [inversion Hin; reflexivity|]);
      contradiction.
Qed.

(** X10: a resend triggered by the user is not a guarded operation: the
    handler never touches the loading flag, the field errors or the step,
    so its single call is in flight under the loading flag the view had,
    with the earlier resend status taken down, and the submit button is as
    enabled as it was. *)
Theorem manual_resend_is_not_guarded (c : View) (w : W) :
  let r := run (resend' c) c w in
  effects r = [(CallResendCode (email c), setResendStatus None c)]
  /\ submitsShown (setResendStatus None c) = [isLoading c]
  /\ isLoading (final r) = isLoading c
  /\ errors (final r) = errors c
  /\ step (final r) = step c.
Proof.
  cbv zeta. by_resend_paths c w; intros; unfold final, effects; simpl;
    (split; [reflexivity|]); (split; [exact (submitsShown_flag (setResendStatus None c))|repeat split]).
Qed.

End SignupCoverage.

(* ===================================================================== *)
(** ** Further properties: the page and its events *)
(* ===================================================================== *)

Section PageCoverage.
Import Signup SignupPage.

Variable W : Type.
Variable signup : jsstring -> jsstring -> jsstring -> W -> completion unit * W.
Variable verifyCode : jsstring -> jsstring -> W -> completion unit * W.
Variable resendCode : jsstring -> W -> completion unit * W.
Variable validateRequired : jsstring -> bool.
Variable validateEmail : jsstring -> bool.
Variable validatePassword : jsstring -> bool.

Abbreviation handler' :=
  (handlerOf signup verifyCode resendCode validateRequired validateEmail
             validatePassword).
Abbreviation dispatch' :=
  (dispatch signup verifyCode resendCode validateRequired validateEmail
            validatePassword).
Abbreviation reachable' :=
  (reachable signup verifyCode resendCode validateRequired validateEmail
             validatePassword).
Abbreviation play' :=
  (play signup verifyCode resendCode validateRequired validateEmail
        validatePassword).

(** *** Which events a page offers *)

Lemma offers_change (v : View) (f : Field) (x : jsstring) :
  offers v (Change f x) = true ->
  match f with
  | CodeField => step v = verification_step
  | _ => step v = signup_step
  end.
Proof.
  unfold offers, render.
  destruct (step v), f, (resendStatus v); simpl;
    intros H; try discriminate H; reflexivity.
Qed.

Lemma offers_submit (v : View) (h : Handler) :
  offers v (Submit h) = true ->
  (h = SignupSubmit /\ step v = signup_step)
  \/ (h = VerificationSubmit /\ step v = verification_step).
Proof.
  unfold offers, render.
  destruct (step v), h, (resendStatus v); simpl;
    intros H; try discriminate H; auto.
Qed.

Lemma offers_click (v : View) (h : Handler) :
  offers v (Click h) = true -> h = ResendCode /\ step v = verification_step.
Proof.
  unfold offers, render.
  destruct (step v), h, (resendStatus v); simpl;
    intros H; try discriminate H; auto.
Qed.

(** *** What holds between two events *)

Lemma change_consistent (s : Session W) (f : Field) (x : jsstring) :
  consistent s -> consistent (dispatch' (Change f x) s).
Proof.
  intros (Hl & Hr). unfold consistent; simpl.
  destruct f; simpl; (split; [exact Hl|exact Hr]).
Qed.

Lemma submit_consistent (s : Session W) :
  consistent s -> consistent (dispatch' (Submit SignupSubmit) s).
Proof.
  intros (Hl & Hr). unfold dispatch, handlerOf.
  apply (SignupPaths.submit_cases signup resendCode validateRequired
           validateEmail validatePassword (shown s) (provider s)); intros;
    unfold consistent, final; simpl;
    (split; [try reflexivity; exact Hl|]);
    first [exact Hr | intros Hv; discriminate Hv | intros _; reflexivity].
Qed.

Lemma verify_consistent (s : Session W) :
  consistent s -> consistent (dispatch' (Submit VerificationSubmit) s).
Proof.
  intros (Hl & Hr). unfold dispatch, handlerOf.
  apply (SignupPaths.verify_cases verifyCode (shown s) (provider s)); intros;
    unfold consistent, final; simpl;
    (split; [try reflexivity; exact Hl|exact Hr]).
Qed.

Lemma resend_consistent (s : Session W) :
  consistent s -> step (shown s) = verification_step ->
  consistent (dispatch' (Click ResendCode) s).
Proof.
  intros (Hl & Hr) Hs. unfold dispatch, handlerOf.
  apply (SignupPaths.resend_cases resendCode (shown s) (provider s)); intros;
    unfold consistent, final; simpl;
    (split; [exact Hl|intros Hv; congruence]).
Qed.

Lemma reachable_consistent (w0 : W) (s : Session W) :
  reachable' w0 s -> consistent s.
Proof.
  induction 1 as [|s a Hreach IH Hoff].
  - unfold consistent, start; simpl. split; reflexivity.
  - destruct a as [f x|h|h].
    + now apply change_consistent.
    + apply offers_submit in Hoff as [[-> Hs]|[-> Hs]].
      * now apply submit_consistent.
      * now apply verify_consistent.
    + apply offers_click in Hoff as [-> Hs]. now apply resend_consistent.
Qed.

Lemma play_reachable (w0 : W) (script : list Action) (s : Session W) :
  reachable' w0 s -> reachable' w0 (play' script s).
Proof.
  revert s. induction script as [|a rest IH]; intros s Hs; simpl; [exact Hs|].
  destruct (offers (shown s) a) eqn:Hoff; apply IH; [|exact Hs].
  now apply reach_next.
Qed.

(** X12: between two events the page is idle: in every session the user can
    bring about, the loading flag is clear and the submit button on display
    is enabled; and as long as the signup form is on display no resend
    status is held. (A handler is run to completion before the next
    event.) *)
Theorem page_between_events_is_idle (w0 : W) (s : Session W) :
  reachable' w0 s ->
  isLoading (shown s) = false
  /\ submitsShown (shown s) = [false]
  /\ (step (shown s) = signup_step -> resendStatus (shown s) = None).
Proof.
  intros Hreach. destruct (reachable_consistent Hreach) as (Hl & Hr).
  split; [exact Hl|]. split; [|exact Hr].
  rewrite submitsShown_flag. now rewrite Hl.
Qed.

(** X14: the email error set on the recovery path is never on display: when
    a valid draft meets [UsernameExistsException], the view holds "User
    already exists. Please verify your email." as the email error, but the
    page now shows the verification form, whose only input takes the code
    error, so no error message at all is handed to an input. *)
Theorem recovery_error_is_not_displayed
  (c : View) (w : W) (props : list (jsstring * value)) :
  draftValid validateRequired validateEmail validatePassword c = true ->
  fst (signup (email c) (password c) (name c) w) = Throw (VObject props) ->
  lookup (str "name") props = Some (VString (str "UsernameExistsException")) ->
  let r := run (handler' SignupSubmit c) c w in
  err_email (errors (final r))
  = Some (str "User already exists. Please verify your email.")
  /\ errorsShown (final r) = []
  /\ In (Heading (str "Verify Email")) (render (final r)).
Proof.
  intros Hv Hrej Hname.
  world_answer (signup (email c) (password c) (name c) w) E.
  assert (X : isUsernameExists (VObject props) = true)
    by (apply named_object_discriminated, Hname).
  cbv zeta. unfold handlerOf.
  rewrite (SignupFacts.signup_exists signup resendCode _ _ _ c w Hv E X).
  unfold final; simpl.
  destruct (fst (resendCode (email c) w')); simpl;
    (split; [reflexivity|]); (split; [reflexivity|]); now left.
Qed.

Ltac settle_in_flight :=
  intros;
  match goal with
  | Hin : In _ (effects _) |- _ =>
      unfold effects in Hin; simpl in Hin;
      repeat (destruct Hin as [Hin|Hin];
              [inversion Hin; subst;
               first [reflexivity | simpl in *; congruence]|]);
      contradiction
  end.

(** X15: while a call issued by one of the two submit handlers is in
    flight, the automatic resend of the recovery path included, the submit
    button of the form on display is disabled. *)
Theorem submit_is_disabled_while_submitting (h : Handler) (c : View) (w : W) :
  h <> ResendCode ->
  forall e v,
    In (e, v) (effects (run (handler' h c) c w)) ->
    isNetworkCall e = true ->
    submitsShown v = [true].
Proof.
  intros Hh e v. rewrite submitsShown_flag.
  destruct h; [| |contradiction]; unfold handlerOf.
  - apply (SignupPaths.submit_cases signup resendCode validateRequired
             validateEmail validatePassword c w); settle_in_flight.
  - apply (SignupPaths.verify_cases verifyCode c w); settle_in_flight.
Qed.

End PageCoverage.

(* ===================================================================== *)
(** ** The further properties on the sample world *)
(* ===================================================================== *)

(** Three spaces as the query, with an earlier answer on display. *)
Lemma blank_query_is_refused_locally_witness :
  forallb isWhiteSpace (str "   ") = true
  /\ final (run (sampleRequest
                   (Recommendations.mkView (str "   ")
                      (str "Dune, by Frank Herbert") false))
                (Recommendations.mkView (str "   ")
                   (str "Dune, by Frank Herbert") false)
                Sample.fresh)
     = Recommendations.mkView (str "   ") (str "Dune, by Frank Herbert") false.
Proof.
  split; [reflexivity|].
  pose proof (@blank_query_is_refused_locally
                Sample.World Sample.getRecommendations
                (Recommendations.mkView (str "   ")
                   (str "Dune, by Frank Herbert") false)
                Sample.fresh eq_refl) as H.
  cbv zeta in H. destruct H as (_ & _ & Hfinal & _). exact Hfinal.
Defined.

Lemma resolved_request_shows_answer_witness :
  forallb isWhiteSpace (Recommendations.query Sample.answeredPanel) = false
  /\ fst (Sample.getRecommendations
            (Recommendations.query Sample.answeredPanel) Sample.fresh)
     = Normal (Recommendations.mkResult (str "Dune, by Frank Herbert"))
  /\ performed (effects (run (sampleRequest Sample.answeredPanel)
                             Sample.answeredPanel Sample.fresh))
     = [CallGetRecommendations (str "space opera")].
Proof.
  split; [reflexivity|]. split; [reflexivity|].
  pose proof (@resolved_request_shows_answer
                Sample.World Sample.getRecommendations
                Sample.answeredPanel Sample.fresh
                (Recommendations.mkResult (str "Dune, by Frank Herbert"))
                eq_refl eq_refl) as H.
  cbv zeta in H. destruct H as (_ & Hcalls & _). exact Hcalls.
Defined.

Lemma request_in_flight_shows_spinner_witness :
  forallb isWhiteSpace (Recommendations.query Sample.answeredPanel) = false
  /\ exists v,
       In (CallGetRecommendations (str "space opera"), v)
          (effects (run (sampleRequest Sample.answeredPanel)
                        Sample.answeredPanel Sample.offline))
       /\ RecommendationsPage.spinnersShown v = [RecommendationsPage.Spinner]
       /\ RecommendationsPage.resultsShown v = []
       /\ In (RecommendationsPage.GetButton true
                (str "Getting Recommendations..."))
             (RecommendationsPage.render v).
Proof.
  split; [reflexivity|].
  exact (@request_in_flight_shows_spinner
           Sample.World Sample.getRecommendations
           Sample.answeredPanel Sample.offline eq_refl).
Defined.

(** A failed request takes the earlier answer off the page. *)
Lemma result_block_iff_answered_witness :
  forallb isWhiteSpace (Recommendations.query Sample.answeredPanel) = false
  /\ RecommendationsPage.resultsShown Sample.answeredPanel
     = [RecommendationsPage.ResultBlock (str "AI Recommendation")
          (str "Dune, by Frank Herbert")]
  /\ RecommendationsPage.resultsShown
       (final (run (sampleRequest Sample.answeredPanel)
                   Sample.answeredPanel Sample.offline))
     = [].
Proof.
  split; [reflexivity|]. split; [reflexivity|].
  pose proof (@result_block_iff_answered
                Sample.World Sample.getRecommendations
                Sample.answeredPanel Sample.offline eq_refl) as H.
  cbv zeta in H. destruct H as (_ & _ & Hshown). exact Hshown.
Defined.

Lemma accepted_signup_moves_to_verification_witness :
  sampleValid Sample.goodDraft = true
  /\ fst (Sample.signup (str "a@b.com") (str "Abc12345") (str "Ada")
                        Sample.fresh)
     = Normal tt
  /\ Signup.step (final (run (sampleSubmit Sample.goodDraft) Sample.goodDraft
                             Sample.fresh))
     = Signup.verification_step.
Proof.
  split; [reflexivity|]. split; [reflexivity|].
  pose proof (@accepted_signup_moves_to_verification
                Sample.World Sample.signup Sample.resendCode
                Validation.validateRequired Validation.validateEmail
                Validation.validatePassword
                Sample.goodDraft Sample.fresh eq_refl eq_refl) as H.
  cbv zeta in H. destruct H as (_ & _ & Hstep & _). exact Hstep.
Defined.

(** The provider cannot be reached: the network error goes to the shared
    handler and the page stays on the signup form. *)
Lemma other_signup_errors_are_forwarded_witness :
  sampleValid Sample.goodDraft = true
  /\ fst (Sample.signup (str "a@b.com") (str "Abc12345") (str "Ada")
                        Sample.offline)
     = Throw Sample.networkError
  /\ In (HandleApiError Sample.networkError)
        (performed (effects (run (sampleSubmit Sample.goodDraft)
                                 Sample.goodDraft Sample.offline))).
Proof.
  split; [reflexivity|]. split; [reflexivity|].
  pose proof (@other_signup_errors_are_forwarded
                Sample.World Sample.signup Sample.resendCode
                Validation.validateRequired Validation.validateEmail
                Validation.validatePassword
                Sample.goodDraft Sample.offline Sample.networkError
                eq_refl eq_refl) as H.
  cbv zeta in H. destruct H as [Hiff _]. apply Hiff.
  intros (props & Heq & Hname). inversion Heq; subst props.
  vm_compute in Hname. discriminate Hname.
Defined.

Lemma accepted_code_navigates_to_login_witness :
  Signup.verificationCode (Sample.verifying (str "123456")) <> []
  /\ fst (Sample.verifyCode (str "a@b.com") (str "123456") Sample.registered)
     = Normal tt
  /\ performed (effects (run (sampleVerify (Sample.verifying (str "123456")))
                             (Sample.verifying (str "123456"))
                             Sample.registered))
     = [PreventDefault; CallVerifyCode (str "a@b.com") (str "123456");
        Navigate (str "/login")].
Proof.
  assert (Hc : Signup.verificationCode (Sample.verifying (str "123456")) <> [])
    by (vm_compute; discriminate).
  split; [exact Hc|]. split; [reflexivity|].
  pose proof (@accepted_code_navigates_to_login
                Sample.World Sample.verifyCode
                (Sample.verifying (str "123456")) Sample.registered
                Hc eq_refl) as H.
  cbv zeta in H. destruct H as (_ & Hcalls & _). exact Hcalls.
Defined.

Lemma missing_code_is_refused_locally_witness :
  Signup.verificationCode (Sample.verifying []) = []
  /\ performed (effects (run (sampleVerify (Sample.verifying []))
                             (Sample.verifying []) Sample.registered))
     = [PreventDefault].
Proof.
  split; [reflexivity|].
  pose proof (@missing_code_is_refused_locally
                Sample.World Sample.verifyCode
                (Sample.verifying []) Sample.registered eq_refl) as H.
  cbv zeta in H. destruct H as (_ & Hcalls & _). exact Hcalls.
Defined.

Lemma page_between_events_is_idle_witness :
  sampleReachable Sample.fresh
    (samplePlay sampleVisit (SignupPage.start Sample.fresh))
  /\ Signup.isLoading
       (SignupPage.shown (samplePlay sampleVisit (SignupPage.start Sample.fresh)))
     = false.
Proof.
  assert (Hreach : sampleReachable Sample.fresh
                     (samplePlay sampleVisit (SignupPage.start Sample.fresh)))
    by (apply play_reachable, SignupPage.reach_start).
  split; [exact Hreach|].
  exact (proj1 (@page_between_events_is_idle
                  Sample.World Sample.signup Sample.verifyCode
                  Sample.resendCode Validation.validateRequired
                  Validation.validateEmail Validation.validatePassword
                  Sample.fresh _ Hreach)).
Defined.

Lemma recovery_error_is_not_displayed_witness :
  sampleValid Sample.goodDraft = true
  /\ fst (Sample.signup (str "a@b.com") (str "Abc12345") (str "Ada")
                        Sample.registered)
     = Throw Sample.usernameExists
  /\ SignupPage.errorsShown
       (final (run (sampleHandler SignupPage.SignupSubmit Sample.goodDraft)
                   Sample.goodDraft Sample.registered))
     = [].
Proof.
  split; [reflexivity|]. split; [reflexivity|].
  pose proof (@recovery_error_is_not_displayed
                Sample.World Sample.signup Sample.verifyCode Sample.resendCode
                Validation.validateRequired Validation.validateEmail
                Validation.validatePassword
                Sample.goodDraft Sample.registered
                [(str "name", VString (str "UsernameExistsException"));
                 (str "message", VString (str "User already exists"))]
                eq_refl eq_refl eq_refl) as H.
  cbv zeta in H. destruct H as (_ & Hshown & _). exact Hshown.
Defined.

Lemma submit_is_disabled_while_submitting_witness :
  SignupPage.SignupSubmit <> SignupPage.ResendCode
  /\ SignupPage.submitsShown (Signup.recovering Sample.goodDraft) = [true].
Proof.
  assert (Hh : SignupPage.SignupSubmit <> SignupPage.ResendCode)
    by discriminate.
  split; [exact Hh|].
  apply (@submit_is_disabled_while_submitting
           Sample.World Sample.signup Sample.verifyCode Sample.resendCode
           Validation.validateRequired Validation.validateEmail
           Validation.validatePassword
           SignupPage.SignupSubmit Sample.goodDraft Sample.registered Hh
           (CallResendCode (str "a@b.com")));
    [vm_compute; right; right; left; reflexivity|reflexivity].
Defined.

(* ===================================================================== *)
(** ** The live page: handlers suspended at their awaits *)
(* ===================================================================== *)


Section LiveCoverage.
Import Signup SignupPage SignupLive.

Variable W : Type.
Variable signup : jsstring -> jsstring -> jsstring -> W -> completion unit * W.
Variable verifyCode : jsstring -> jsstring -> W -> completion unit * W.
Variable resendCode : jsstring -> W -> completion unit * W.
Variable validateRequired : jsstring -> bool.
Variable validateEmail : jsstring -> bool.
Variable validatePassword : jsstring -> bool.

Abbreviation begin' :=
  (begin signup verifyCode resendCode validateRequired validateEmail
         validatePassword).
Abbreviation resume' := (@resume W resendCode).
Abbreviation inOneGo' :=
  (inOneGo signup verifyCode resendCode validateRequired validateEmail
           validatePassword).
Abbreviation happen' :=
  (happen signup verifyCode resendCode validateRequired validateEmail
          validatePassword).
Abbreviation comesAbout' :=
  (comesAbout signup verifyCode resendCode validateRequired validateEmail
              validatePassword).
Abbreviation unfold' :=
  (unfold signup verifyCode resendCode validateRequired validateEmail
          validatePassword).
Abbreviation handler' :=
  (handlerOf signup verifyCode resendCode validateRequired validateEmail
             validatePassword).

Ltac open_stretch :=
  unfold begin, beginSignup, beginVerification, beginResend, resume;
  repeat match goal with
         | |- context [let (_, _) := ?e in _] => destruct e
         | |- context [match ?a with Normal _ => _ | Throw _ => _ end] =>
             destruct a
         | |- context [if ?b then _ else _] => destruct b
         end;
  simpl.

(** *** The stretches against the handlers *)

(** Run one after the other with nothing in between, the stretches of a
    handler do what the handler does. *)
Lemma stretches_agree (h : Handler) (c : View) (w : W) :
  inOneGo' h c w
  = (final (run (handler' h c) c w), world (snd (run (handler' h c) c w)),
     performed (effects (run (handler' h c) c w))).
Proof.
  destruct h; unfold handlerOf, inOneGo, begin.
  - apply (SignupPaths.submit_cases signup resendCode validateRequired
             validateEmail validatePassword c w); intros;
      unfold beginSignup; rewrite SignupFacts.validate_agrees;
      match goal with H : draftValid _ _ _ _ = _ |- _ => rewrite H end.
    + reflexivity.
    + rewrite (SignupFacts.newErrors_valid _ _ _ c H), H0. reflexivity.
    + rewrite (SignupFacts.newErrors_valid _ _ _ c H), H0. simpl.
      rewrite H1, H2. reflexivity.
    + rewrite (SignupFacts.newErrors_valid _ _ _ c H), H0. simpl.
      rewrite H1, H2. reflexivity.
    + rewrite (SignupFacts.newErrors_valid _ _ _ c H), H0. simpl.
      rewrite H1. reflexivity.
  - apply (SignupPaths.verify_cases verifyCode c w); intros;
      unfold beginVerification.
    + rewrite H. reflexivity.
    + apply isEmpty_false in H. rewrite H, H0. reflexivity.
    + apply isEmpty_false in H. rewrite H, H0. reflexivity.
  - apply (SignupPaths.resend_cases resendCode c w); intros;
      unfold beginResend; rewrite H; reflexivity.
Qed.

(** *** What the stretches write *)

Lemma begin_step (h : Handler) (v : View) (w : W) :
  step (written (begin' h v w)) = step v.
Proof. destruct h; open_stretch; reflexivity. Qed.

Lemma begin_email (h : Handler) (v : View) (w : W) :
  email (written (begin' h v w)) = email v.
Proof. destruct h; open_stretch; reflexivity. Qed.

Lemma resume_step (p : Pending) (v : View) (w : W) :
  step (written (resume' p v w)) = verification_step
  \/ (step (written (resume' p v w)) = step v
      /\ (pastSignup p = false ->
          resendStatus (written (resume' p v w)) = resendStatus v)).
Proof.
  destruct p; open_stretch;
    first [left; reflexivity
          |right; split;
           [reflexivity|intros H; first [reflexivity | discriminate H]]].
Qed.

Lemma resume_keeps_verification (p : Pending) (v : View) (w : W) :
  step v = verification_step ->
  step (written (resume' p v w)) = verification_step.
Proof. intros Hs. destruct (resume_step p v w) as [H|[H _]]; congruence. Qed.

Lemma resume_email (p : Pending) (v : View) (w : W) :
  email (written (resume' p v w)) = email v.
Proof. destruct p; open_stretch; reflexivity. Qed.




(** *** What holds of a live page at every moment *)





(** *** Signup submissions on a live page *)


(** *** The verification step on a live page *)

Lemma begin_stays (h : Handler) (v : View) (w : W) :
  existsb isNavigate (performedNow (begin' h v w)) = false.
Proof. destruct h; open_stretch; reflexivity. Qed.

Lemma resume_leaves (p : Pending) (v : View) (w : W) :
  existsb isNavigate (performedNow (resume' p v w)) = true ->
  (exists c u, p = VerifyPending c (Normal u))
  /\ performedNow (resume' p v w) = [Navigate (str "/login")].
Proof.
  destruct p as [c a|c a|c a|c a]; open_stretch; intros H;
    try discriminate H.
  split; [|reflexivity]. eexists. eexists. reflexivity.
Qed.

Lemma begin_verifies (h : Handler) (v : View) (w : W) (em code : jsstring) :
  In (CallVerifyCode em code) (performedNow (begin' h v w)) ->
  em = email v /\ code = verificationCode v.
Proof.
  destruct h; open_stretch; intros Hin;
    repeat (destruct Hin as [Hin|Hin]; [try discriminate Hin|]);
    try contradiction.
  inversion Hin. now split.
Qed.

Lemma resume_verifies_nothing (p : Pending) (v : View) (w : W)
      (em code : jsstring) :
  ~ In (CallVerifyCode em code) (performedNow (resume' p v w)).
Proof.
  destruct p; open_stretch; intros Hin;
    repeat (destruct Hin as [Hin|Hin]; [discriminate Hin|]);
    contradiction.
Qed.

(** One happening on a page in the verification step. *)
Lemma verification_happening (ev : Happening) (s s' : Live W) :
  step (onScreen s) = verification_step ->
  happen' ev s = Some s' ->
  step (onScreen s') = verification_step
  /\ email (onScreen s') = email (onScreen s)
  /\ exists added,
       past s' = past s ++ added
       /\ forall em code, In (CallVerifyCode em code) added ->
                          em = email (onScreen s).
Proof.
  intros Hstep Hev. destruct ev as [a|i]; simpl in Hev.
  - destruct (mounted s && offers (onScreen s) a) eqn:Hoff; [|discriminate].
    apply andb_true_iff in Hoff as [_ Hoff].
    inversion Hev; subst s'; clear Hev. destruct a as [f x|h|h]; simpl.
    + apply offers_change in Hoff.
      destruct f; try congruence. simpl.
      split; [exact Hstep|]. split; [reflexivity|].
      exists []. split; [now rewrite app_nil_r|intros em code []].
    + rewrite begin_step, begin_email. split; [exact Hstep|].
      split; [reflexivity|]. eexists. split; [reflexivity|].
      intros em code Hin. now apply begin_verifies in Hin.
    + rewrite begin_step, begin_email. split; [exact Hstep|].
      split; [reflexivity|]. eexists. split; [reflexivity|].
      intros em code Hin. now apply begin_verifies in Hin.
  - destruct (nth_error (inFlight s) i) as [p|]; [|discriminate].
    inversion Hev; subst s'; clear Hev. simpl.
    rewrite resume_email. split; [now apply resume_keeps_verification|].
    split; [reflexivity|]. eexists. split; [reflexivity|].
    intros em code Hin. now apply resume_verifies_nothing in Hin.
Qed.

(** X11: once the page is in the verification step the signup form never
    comes back: after any happening, and along any course of happenings,
    events of the user and answers of the provider in any order, the step
    is still the verification step. The only way out is the navigation to
    [/login] when the answer to a [verifyCode] call arrives and the code was
    accepted. *)
Theorem signup_form_never_comes_back
  (ev : Happening) (course : list Happening) (s s' : Live W) :
  step (onScreen s) = verification_step ->
  step (onScreen (unfold' course s)) = verification_step
  /\ (happen' ev s = Some s' ->
      step (onScreen s') = verification_step
      /\ (mounted s = true -> mounted s' = false ->
          exists i c u,
            ev = Answer i
            /\ nth_error (inFlight s) i = Some (VerifyPending c (Normal u))
            /\ past s' = past s ++ [Navigate (str "/login")])).
Proof.
  intros Hstep. split.
  - revert s Hstep. induction course as [|e rest IH]; intros s Hstep; simpl;
      [exact Hstep|].
    destruct (happen' e s) as [t|] eqn:He; apply IH; [|exact Hstep].
    now apply (@verification_happening e s t Hstep) in He.
  - intros Hev. split; [now apply (@verification_happening ev s s' Hstep) in Hev|].
    intros Hm Hm'. destruct ev as [a|i]; simpl in Hev.
    + destruct (mounted s && offers (onScreen s) a); [|discriminate].
      inversion Hev; subst s'; clear Hev. destruct a as [f x|h|h]; simpl in Hm';
        try congruence;
        rewrite begin_stays, Hm in Hm'; discriminate Hm'.
    + destruct (nth_error (inFlight s) i) as [p|] eqn:Hp; [|discriminate].
      inversion Hev; subst s'; clear Hev. simpl in Hm'. rewrite Hm in Hm'.
      simpl in Hm'. apply negb_false_iff in Hm'.
      apply resume_leaves in Hm' as [(c & u & ->) Hnav].
      exists i, c, u. split; [reflexivity|]. split; [exact Hp|].
      simpl. reflexivity.
Qed.

(** X13: once the page is in the verification step, the email held in the
    view no longer changes, whatever the user does and in whatever order
    the answers of the provider arrive, and every [verifyCode] call issued
    from then on carries that email. *)
Theorem verification_email_is_fixed (course : list Happening) (s : Live W) :
  step (onScreen s) = verification_step ->
  email (onScreen (unfold' course s)) = email (onScreen s)
  /\ exists added,
       past (unfold' course s) = past s ++ added
       /\ forall em code, In (CallVerifyCode em code) added ->
                          em = email (onScreen s).
Proof.
  revert s. induction course as [|ev rest IH]; intros s Hstep; simpl.
  - split; [reflexivity|]. exists []. split; [now rewrite app_nil_r|].
    intros em code [].
  - destruct (happen' ev s) as [t|] eqn:Hev; [|now apply IH].
    destruct (@verification_happening ev s t Hstep Hev)
      as (Hstep' & Hemail & added & Hpast & Hcalls).
    destruct (IH t Hstep') as (Hemail' & added' & Hpast' & Hcalls').
    split; [congruence|]. exists (added ++ added'). split.
    + rewrite Hpast', Hpast. now rewrite app_assoc.
    + intros em code Hin. apply in_app_or in Hin as [Hin|Hin].
      * now apply (Hcalls em code).
      * rewrite <- Hemail. now apply (Hcalls' em code).
Qed.

End LiveCoverage.

(* ===================================================================== *)
(** ** The live page of the sample world *)
(* ===================================================================== *)


(** The right code is submitted and accepted: the page is left for
    [/login], in the verification step to the last. *)
Lemma signup_form_never_comes_back_witness :
  Signup.step
    (SignupLive.onScreen (sampleUnfold codeSubmitted (verifyingPage (str "123456"))))
  = Signup.verification_step
  /\ sampleHappen (SignupLive.Answer 0)
       (sampleUnfold codeSubmitted (verifyingPage (str "123456")))
     = Some (sampleUnfold (codeSubmitted ++ codeAnswered)
                          (verifyingPage (str "123456")))
  /\ Signup.step
       (SignupLive.onScreen
          (sampleUnfold (codeSubmitted ++ codeAnswered)
                        (verifyingPage (str "123456"))))
     = Signup.verification_step
  /\ SignupLive.mounted
       (sampleUnfold (codeSubmitted ++ codeAnswered)
                     (verifyingPage (str "123456")))
     = false.
Proof.
  assert (Hev : sampleHappen (SignupLive.Answer 0)
                  (sampleUnfold codeSubmitted (verifyingPage (str "123456")))
                = Some (sampleUnfold (codeSubmitted ++ codeAnswered)
                                     (verifyingPage (str "123456"))))
    by (vm_compute; reflexivity).
  split; [reflexivity|]. split; [exact Hev|]. split; [|reflexivity].
  pose proof (@signup_form_never_comes_back
                Sample.World Sample.signup Sample.verifyCode
                Sample.resendCode Validation.validateRequired
                Validation.validateEmail Validation.validatePassword
                (SignupLive.Answer 0) []
                (sampleUnfold codeSubmitted (verifyingPage (str "123456")))
                (sampleUnfold (codeSubmitted ++ codeAnswered)
                              (verifyingPage (str "123456")))
                eq_refl) as H.
  exact (proj1 (proj2 H Hev)).
Defined.

Lemma verification_email_is_fixed_witness :
  Signup.step (SignupLive.onScreen (verifyingPage (str "000000")))
  = Signup.verification_step
  /\ Signup.email
       (SignupLive.onScreen
          (sampleUnfold patientVisit (verifyingPage (str "000000"))))
     = str "a@b.com".
Proof.
  split; [reflexivity|].
  exact (proj1 (@verification_email_is_fixed
                  Sample.World Sample.signup Sample.verifyCode
                  Sample.resendCode Validation.validateRequired
                  Validation.validateEmail Validation.validatePassword
                  patientVisit (verifyingPage (str "000000")) eq_refl)).
Defined.

(** The email of the verification step need not be the one the signup call
    was issued for: the email input stays on display, and editable, while
    the signup call is in flight. *)
Lemma email_edited_while_signing_up :
  SignupLive.past (sampleUnfold hastyVisit (SignupLive.opened Sample.fresh))
  = [PreventDefault;
     CallSignup (str "a@b.com") (str "Abc12345") (str "Ada");
     PreventDefault;
     CallVerifyCode (str "a@c.com") (str "123456");
     Navigate (str "/login")].
Proof. reflexivity. Qed.
